(** * Grove: the Google BigQuery query connector

    A shallow embedding of [grove/connectors/google/bigquery_query.py]
    ([Connector.collect] and [Connector.get_credentials]) and the properties
    of its cursor-driven pagination: configuration checks, pointer
    resolution under the two time formats, the text of the range-scan
    query, and the paging loop with its calls to the sink.

    Layout: Python values and built-ins ([Py]), the calendar and float
    arithmetic behind the look-back window ([Datetime]), the connector
    itself (section [Connector]), then the lemmas. *)

From Stdlib Require Import ZArith Lia Ascii String Decimal DecimalString.
From Stdlib Require Import DecimalZ DecimalPos SpecFloat.
From stdpp Require Import base option list strings gmap.

Local Open Scope Z_scope.

#[local] Set Warnings "-register-all".

(* ===================================================================== *)
(** ** Python values and the built-ins the connector calls               *)
(* ===================================================================== *)

Module Py.

(** The values a configuration attribute can hold (what a JSON or TOML
    document deserialises to).  A [dict] keeps its insertion order, so it
    is an association list. *)
Inductive pyval : Type :=
| PyNone
| PyBool (b : bool)
| PyInt (n : Z)
| PyFloat (x : spec_float)
| PyStr (s : string)
| PyList (items : list pyval)
| PyDict (items : list (pyval * pyval)).

(** [bool(v)]: the truth value tested by [if not v]. *)
Definition truthy (v : pyval) : bool :=
  match v with
  | PyNone => false
  | PyBool b => b
  | PyInt n => negb (n =? 0)
  | PyFloat (S754_zero _) => false
  | PyFloat _ => true
  | PyStr s => negb (String.eqb s "")
  | PyList items => match items with [] => false | _ => true end
  | PyDict items => match items with [] => false | _ => true end
  end.

(** [isinstance(v, int)] together with the integer it stands for:
    [bool] is a subclass of [int], [True] counts as 1 and [False] as 0. *)
Definition as_int (v : pyval) : option Z :=
  match v with
  | PyInt n => Some n
  | PyBool b => Some (if b then 1 else 0)
  | _ => None
  end.

(** [isinstance(v, str)]. *)
Definition as_str (v : pyval) : option string :=
  match v with PyStr s => Some s | _ => None end.

(** [isinstance(v, list)]. *)
Definition as_list (v : pyval) : option (list pyval) :=
  match v with PyList items => Some items | _ => None end.

(** [str.isspace] on one character, for the code points below 256. *)
Definition isspace (c : ascii) : bool :=
  let n := N_of_ascii c in
  ((9 <=? n) && (n <=? 13) || (28 <=? n) && (n <=? 32)
   || (n =? 133) || (n =? 160))%N.

(** The white space [int] drops around a literal: the separators 28 to 31
    are white space for [str.strip] but not here. *)
Definition int_space (c : ascii) : bool :=
  let n := N_of_ascii c in
  ((9 <=? n) && (n <=? 13) || (n =? 32) || (n =? 133) || (n =? 160))%N.

Fixpoint lstrip (space : ascii → bool) (s : string) : string :=
  match s with
  | EmptyString => EmptyString
  | String c r => if space c then lstrip space r else s
  end.

Fixpoint rstrip (space : ascii → bool) (s : string) : string :=
  match s with
  | EmptyString => EmptyString
  | String c r =>
      match rstrip space r with
      | EmptyString => if space c then EmptyString else String c EmptyString
      | r' => String c r'
      end
  end.

(** [s.strip()]. *)
Definition strip (s : string) : string := rstrip isspace (lstrip isspace s).

(** Truth value of a [str]. *)
Definition nonempty (s : string) : bool := negb (String.eqb s "").

Definition digit_value (c : ascii) : option Z :=
  let n := Z.of_N (N_of_ascii c) in
  if (48 <=? n) && (n <=? 57) then Some (n - 48) else None.

(** The digits of a base-10 literal after the sign.  [after_digit] records
    that the previous character was a digit: an underscore is accepted
    only between two digits, and the literal must end on a digit. *)
Fixpoint int_digits (after_digit : bool) (acc : Z) (s : string) : option Z :=
  match s with
  | EmptyString => if after_digit then Some acc else None
  | String c r =>
      match digit_value c with
      | Some d => int_digits true (acc * 10 + d) r
      | None =>
          if Ascii.eqb c "_" && after_digit then int_digits false acc r
          else None
      end
  end.

(** [int(s)] for a [str]: surrounding white space is dropped, one sign is
    allowed, then decimal digits.  [None] is [ValueError].  The
    interpreter's optional cap on the number of digits is not modelled. *)
Definition int_of_str (s : string) : option Z :=
  match rstrip int_space (lstrip int_space s) with
  | String "+" r => int_digits false 0 r
  | String "-" r => Z.opp <$> int_digits false 0 r
  | body => int_digits false 0 body
  end.

(** [str(n)] for an [int]. *)
Definition str_of_int (n : Z) : string := NilZero.string_of_int (Z.to_int n).

(** [s.replace(old, new)] for a non-empty [old]: occurrences are replaced
    from the left and do not overlap.  [skip] counts the characters of a
    match that are still to be dropped. *)
Fixpoint replace_from (skip : nat) (old new s : string) : string :=
  match s with
  | EmptyString => EmptyString
  | String c r =>
      match skip with
      | S k => replace_from k old new r
      | O =>
          if String.prefix old s
          then new +:+ replace_from (Nat.pred (String.length old)) old new r
          else String c (replace_from O old new r)
      end
  end.

Definition replace (old new s : string) : string := replace_from O old new s.

(** [sep.join(items)]; [None] is the [TypeError] raised when an item is
    not a [str]. *)
Fixpoint join (sep : string) (items : list pyval) : option string :=
  match items with
  | [] => Some EmptyString
  | [v] => as_str v
  | v :: rest =>
      s ← as_str v;
      t ← join sep rest;
      Some (s +:+ sep +:+ t)
  end.

End Py.


(* ===================================================================== *)
(** ** Calendar and binary64 arithmetic of the look-back window          *)
(* ===================================================================== *)

Module Datetime.

(** A [datetime] in UTC is the count of microseconds since
    1970-01-01 00:00:00; [timedelta(days=7)] is [week]. *)
Definition usec_per_second : Z := 1000000.
Definition usec_per_day : Z := 86400 * usec_per_second.
Definition week : Z := 7 * usec_per_day.

(** Year, month and day of a day count since 1970-01-01 in the proleptic
    Gregorian calendar, by 400-year eras starting on 1 March. *)
Definition civil_from_days (days : Z) : Z * Z * Z :=
  let z := days + 719468 in
  let era := z / 146097 in
  let doe := z - era * 146097 in
  let yoe := (doe - doe / 1460 + doe / 36524 - doe / 146096) / 365 in
  let doy := doe - (365 * yoe + yoe / 4 - yoe / 100) in
  let mp := (5 * doy + 2) / 153 in
  let d := doy - (153 * mp + 2) / 5 + 1 in
  let m := if mp <? 10 then mp + 3 else mp - 9 in
  let y := yoe + era * 400 + (if m <=? 2 then 1 else 0) in
  (y, m, d).

(** A number left-padded with zeros to [width] characters. *)
Definition zero_pad (width : nat) (n : Z) : string :=
  let digits := Py.str_of_int n in
  String.concat "" (replicate (width - String.length digits) "0") +:+ digits.

(** [t.strftime("%Y-%m-%d %H:%M:%S+00")]: the microseconds are dropped. *)
Definition strftime (t : Z) : string :=
  let '(y, m, d) := civil_from_days (t / usec_per_day) in
  let second_of_day := (t mod usec_per_day) / usec_per_second in
  zero_pad 4 y +:+ "-" +:+ zero_pad 2 m +:+ "-" +:+ zero_pad 2 d +:+ " "
  +:+ zero_pad 2 (second_of_day / 3600) +:+ ":"
  +:+ zero_pad 2 (second_of_day mod 3600 / 60) +:+ ":"
  +:+ zero_pad 2 (second_of_day mod 60) +:+ "+00".

(** An [int] as an exact binary operand. *)
Definition float_of_int (n : Z) : spec_float :=
  match n with
  | Z0 => S754_zero false
  | Zpos p => S754_finite false p 0
  | Zneg p => S754_finite true p 0
  end.

(** [a / b] on two [int]s: the quotient rounded once to binary64. *)
Definition true_divide (a b : Z) : spec_float :=
  SFdiv 53 1024 (float_of_int a) (float_of_int b).

(** [int(x)] for a [float]: truncation towards zero.  A [datetime] is
    finite, so the connector never converts an infinity or a NaN (where
    Python raises); those cases are given 0 here. *)
Definition int_of_float (x : spec_float) : Z :=
  match x with
  | S754_finite s m e =>
      let magnitude :=
        if 0 <=? e then Zpos m * 2 ^ e else Zpos m / 2 ^ (- e) in
      if s then - magnitude else magnitude
  | _ => 0
  end.

(** [t.timestamp()] for an aware [datetime]: [(t - epoch).total_seconds()],
    the microsecond count divided by [10**6]. *)
Definition timestamp (t : Z) : spec_float := true_divide t usec_per_second.

(** [int(t.timestamp() * 1_000_000)]. *)
Definition epoch_usec (t : Z) : Z :=
  int_of_float (SFmul 53 1024 (timestamp t) (float_of_int 1000000)).

End Datetime.


(* ===================================================================== *)
(** ** The connector                                                     *)
(* ===================================================================== *)

Import Py Datetime.

(** The two values of [time_format]. *)
Inductive time_format : Type := Microseconds | Timestamp.

(** Why a [ConfigurationException] was raised. *)
Inductive config_error : Type :=
| MissingAttribute (name : string)
| PointerPathNotSet
| MaxBatchesNotPositive
| NotAString (value : pyval)
| ColumnsNotAList
| BadTimeFormat
| BadServiceAccountJson
| CredentialsAuthError
| CredentialsValueError.

(** The exceptions that leave [collect]. *)
Inductive exception : Type :=
| ConfigurationException (why : config_error)
| RequestFailedException (cause : string)
| TypeError
| UnboundLocalError
| ClientError (name : string).

(** Code that may raise: [inl] is the exception, [inr] the value. *)
#[global] Instance raise_bind {E : Type} : MBind (sum E) :=
  λ A B f x, match x with inl e => inl e | inr a => f a end.

(** The locals bound by the first [try] block of [collect], once every
    check has passed. *)
Record configuration : Type := Configuration {
  project_id : string;
  dataset_name : string;
  table_name : string;
  columns : list pyval;
  max_batches : Z;
  POINTER_PATH : pyval;
  cfg_time_format : time_format
}.

(** One row of a result set, [dict(row)]. *)
Definition row : Type := list (string * pyval).

(** What [client.query(query).result()] and the iteration over it give. *)
Inductive response : Type :=
| Rows (rows : list row)
| Failure (cause : string).

(** What [json.loads(self.key)] and [from_service_account_info] do with
    the connector's secret. *)
Inductive key_status : Type :=
| KeyAccepted
| KeyNotJson
| KeyAuthError
| KeyValueError.

(** What a run of [collect] is given.  The collaborators live in
    [BaseConnector] and outside the repository, so they are parameters of
    the run: the pointer store answers the read of [self.pointer] with
    [stored_pointer] ([None] when it raises [NotFoundException]) and an
    assignment to [self.pointer] is the event [SetPointer]; the clock
    reads [utcnow]; [key] and [client_error] say how the secret and the
    client's constructor fare; the transport is asked by the number of
    the call (from 0) and the text of the query; [save_error] is the
    exception of the sink's [save], if any. *)
Record environment : Type := Environment {
  stored_pointer : option string;
  utcnow : Z;
  key : key_status;
  client_error : option string;
  execute : nat → string → response;
  save_error : list row → option string
}.

(** The calls [collect] makes on its collaborators, in order. *)
Inductive event : Type :=
| SetPointer (value : string)
| Query (text : string)
| Save (rows : list row).

(** How a call of [collect] ends: the calls it made, and the exception it
    raised if it did not return. *)
Record outcome : Type := Outcome {
  events : list event;
  raised : option exception
}.

Definition after (e : event) (o : outcome) : outcome :=
  {| events := e :: events o; raised := raised o |}.

(** The pointer as left by the resolution step: [self.pointer], and the
    local [pointer_epoch_usec] when it is bound. *)
Record resolution : Type := Resolution {
  pointer : string;
  pointer_epoch_usec : option Z
}.

(** A sample [fromisoformat] for the examples.  It accepts the strings
    [YYYY-MM-DD HH:MM:SS+00:00] and [YYYY-MM-DD HH:MM:SS+00:00:00] that
    name a date and a time of day, which every interpreter version parses,
    and nothing else. *)
Definition matches_char (c : ascii) (p : ascii) : bool :=
  if Ascii.eqb p "9" then bool_decide (is_Some (digit_value c))
  else Ascii.eqb c p.

(** [s] has the shape of [pattern], where a 9 stands for any digit. *)
Fixpoint matches_shape (s pattern : string) : bool :=
  match s, pattern with
  | EmptyString, EmptyString => true
  | String c s', String p pattern' =>
      matches_char c p && matches_shape s' pattern'
  | _, _ => false
  end.

Definition field (s : string) (start len : nat) : Z :=
  default 0 (int_digits false 0 (String.substring start len s)).

Definition is_leap (y : Z) : bool :=
  (y mod 4 =? 0) && (negb (y mod 100 =? 0) || (y mod 400 =? 0)).

Definition days_in_month (y m : Z) : Z :=
  if m =? 2 then (if is_leap y then 29 else 28)
  else if (m =? 4) || (m =? 6) || (m =? 9) || (m =? 11) then 30
  else 31.

Definition sample_fromisoformat (s : string) : bool :=
  (matches_shape s "9999-99-99 99:99:99+00:00"
   || matches_shape s "9999-99-99 99:99:99+00:00:00")
  && (1 <=? field s 0 4)
  && (1 <=? field s 5 2) && (field s 5 2 <=? 12)
  && (1 <=? field s 8 2)
  && (field s 8 2 <=? days_in_month (field s 0 4) (field s 5 2))
  && (field s 11 2 <=? 23) && (field s 14 2 <=? 59) && (field s 17 2 <=? 59).

(** The sample [format] of the examples, for an [int]. *)
Definition sample_format (v : pyval) : string :=
  match v with PyInt n => str_of_int n | _ => "object" end.

(** *** The query of the design, clause by clause *)

(** The line break and the indentation inside the f-string of lines
    142-149. *)
Definition nl : string := String "010" EmptyString.
Definition indent : string := "            ".

(** The text a native pointer takes in the WHERE condition. *)
Definition to_query_literal (tf : time_format) (res : resolution)
  : option string :=
  match tf with
  | Microseconds => str_of_int <$> pointer_epoch_usec res
  | Timestamp => Some ("TIMESTAMP('" +:+ pointer res +:+ "')")
  end.

(** The six clauses of the range scan, for a row limit. *)
Definition range_scan (cols project dataset table path bound : string)
    (limit : Z) : list string :=
  [ "SELECT " +:+ cols;
    "FROM `" +:+ project +:+ "." +:+ dataset +:+ "." +:+ table +:+ "`";
    "WHERE " +:+ path +:+ " > " +:+ bound;
    "AND " +:+ path +:+ " IS NOT NULL";
    "ORDER BY " +:+ path +:+ " ASC";
    "LIMIT " +:+ str_of_int limit ].

(** One clause a line, indented as in the source. *)
Definition layout (clauses : list string) : string :=
  foldr (λ clause text, nl +:+ indent +:+ clause +:+ text)
        (nl +:+ indent) clauses.

(** *** Sample inputs *)

(** A configuration that leaves [max_batches] and [time_format] to their
    defaults, and variants of it. *)
Definition raw_default : gmap string pyval :=
  list_to_map
    [ ("project_id", PyStr "proj"); ("dataset_name", PyStr "logs");
      ("table_name", PyStr "events");
      ("columns", PyList [PyStr "ts"; PyStr "message"]);
      ("pointer_path", PyStr "ts") ].

Definition cfg_default : configuration :=
  Configuration "proj" "logs" "events" [PyStr "ts"; PyStr "message"] 3
                (PyStr "ts") Microseconds.

Definition raw_timestamp : gmap string pyval :=
  <["time_format" := PyStr "timestamp"]> raw_default.

Definition cfg_timestamp : configuration :=
  Configuration "proj" "logs" "events" [PyStr "ts"; PyStr "message"] 3
                (PyStr "ts") Timestamp.

(** Empty names and no column. *)
Definition raw_empty_names : gmap string pyval :=
  list_to_map
    [ ("project_id", PyStr ""); ("dataset_name", PyStr "");
      ("table_name", PyStr ""); ("columns", PyList []);
      ("pointer_path", PyStr "ts") ].

(** A project that is not a string and an empty pointer path. *)
Definition raw_two_faults : gmap string pyval :=
  list_to_map
    [ ("project_id", PyInt 5); ("dataset_name", PyStr "logs");
      ("table_name", PyStr "events"); ("columns", PyList [PyStr "ts"]);
      ("pointer_path", PyStr "") ].

Definition sample_row (i : nat) : row :=
  [("ts", PyInt (1700000000000001 + Z.of_nat i)); ("message", PyStr "m")].

(** A page of 1000 rows. *)
Definition full_page : list row := sample_row <$> seq 0 1000.

(** The clock reads 2024-01-01 00:00:00.123456; the secret is accepted,
    the client is built and the sink does not raise. *)
Definition sample_env (stored : option string)
    (transport : nat → string → response) : environment :=
  Environment stored 1704067200123456 KeyAccepted None transport (λ _, None).

(** One full page, then an empty one. *)
Definition env_full_then_empty : environment :=
  sample_env (Some "1700000000000000")
    (λ i _, match i with O => Rows full_page | _ => Rows [] end).

(** No stored pointer and a transport that fails at once. *)
Definition env_cold_failing : environment :=
  sample_env None (λ _ _, Failure "connection reset").

(** One full page, then a failure. *)
Definition env_full_then_failure : environment :=
  sample_env (Some "1700000000000000")
    (λ i _, match i with O => Rows full_page | _ => Failure "timeout" end).

(** The same full page for every query. *)
Definition env_same_page : environment :=
  sample_env (Some "1700000000000000") (λ _ _, Rows full_page).

(** A single row. *)
Definition env_one_row : environment :=
  sample_env (Some "1700000000000000") (λ _ _, Rows [sample_row 0]).

(** A stored pointer of two spaces and a table without new rows. *)
Definition env_blank_pointer : environment :=
  sample_env (Some "  ") (λ _ _, Rows []).

(** A column that is not a string. *)
Definition raw_bad_column : gmap string pyval :=
  <["columns" := PyList [PyStr "ts"; PyInt 5]]> raw_default.

Definition cfg_bad_column : configuration :=
  Configuration "proj" "logs" "events" [PyStr "ts"; PyInt 5] 3
                (PyStr "ts") Microseconds.

(** A secret that is not JSON. *)
Definition env_rejected_key : environment :=
  Environment (Some "1700000000000000") 1704067200123456 KeyNotJson None
              (λ _ _, Rows full_page) (λ _, None).

(** A table without new rows. *)
Definition env_empty_table : environment :=
  sample_env (Some "1700000000000000") (λ _ _, Rows []).

(** One full page, then a page of one row. *)
Definition env_full_then_short : environment :=
  sample_env (Some "1700000000000000")
    (λ i _, match i with
            | O => Rows full_page
            | _ => Rows [sample_row 1000]
            end).

(** A single row and a sink that raises. *)
Definition env_sink_raises : environment :=
  Environment (Some "1700000000000000") 1704067200123456 KeyAccepted None
              (λ _ _, Rows [sample_row 0]) (λ _, Some "disk full").

(** A stored timestamp and a single row. *)
Definition env_warm_timestamp : environment :=
  sample_env (Some "2024-01-01 10:00:00+00") (λ _ _, Rows [sample_row 0]).

(** The query of [cfg_default] for the stored pointer 1700000000000000. *)
Definition sample_query : string :=
  layout
    [ "SELECT ts, message"; "FROM `proj.logs.events`";
      "WHERE ts > 1700000000000000"; "AND ts IS NOT NULL";
      "ORDER BY ts ASC"; "LIMIT 1000" ].

(** *** What a trace shows *)

(** The texts of the queries executed, the row sets handed to the sink
    and the values assigned to the pointer, each in order. *)
Definition queries (es : list event) : list string :=
  omap (λ e, match e with Query text => Some text | _ => None end) es.

Definition saves (es : list event) : list (list row) :=
  omap (λ e, match e with Save rows => Some rows | _ => None end) es.

Definition pointer_writes (es : list event) : list string :=
  omap (λ e, match e with SetPointer v => Some v | _ => None end) es.

(** The rows of a response; a failed query has none. *)
Definition rows_of (r : response) : list row :=
  match r with Rows rows => rows | Failure _ => [] end.

(** The value of a run of decimal digits read from the left. *)
Fixpoint uint_acc (d : Decimal.uint) (acc : Z) : Z :=
  match d with
  | Nil => acc
  | D0 d => uint_acc d (acc * 10 + 0)
  | D1 d => uint_acc d (acc * 10 + 1)
  | D2 d => uint_acc d (acc * 10 + 2)
  | D3 d => uint_acc d (acc * 10 + 3)
  | D4 d => uint_acc d (acc * 10 + 4)
  | D5 d => uint_acc d (acc * 10 + 5)
  | D6 d => uint_acc d (acc * 10 + 6)
  | D7 d => uint_acc d (acc * 10 + 7)
  | D8 d => uint_acc d (acc * 10 + 8)
  | D9 d => uint_acc d (acc * 10 + 9)
  end.

Section Connector.

(** [datetime.fromisoformat]: [true] when the call returns, [false] when
    it raises [ValueError].  The formats it accepts differ between
    interpreter versions and [collect] only uses whether it returns. *)
Variable fromisoformat : string → bool.

(** [format(v, "")], the text an f-string field gives a value that is not
    a [str]. *)
Variable format_value : pyval → string.

(** [self.configuration.<name>]; a missing attribute is the
    [AttributeError] that the [except] clause of lines 64-67 turns into a
    [ConfigurationException]. *)
Definition attribute (raw : gmap string pyval) (name : string)
  : config_error + pyval :=
  match raw !! name with
  | Some v => inr v
  | None => inl (MissingAttribute name)
  end.

(** One turn of the loop of lines 53-55 over [project_id], [dataset_name]
    and [table_name]. *)
Definition require_str (value : pyval) : config_error + string :=
  match as_str value with
  | Some s => inr s
  | None => inl (NotAString value)
  end.

Definition parse_time_format (v : pyval) : option time_format :=
  match v with
  | PyStr s =>
      if String.eqb s "microseconds" then Some Microseconds
      else if String.eqb s "timestamp" then Some Timestamp
      else None
  | _ => None
  end.

(** Lines 30-67: the attributes are read first, then checked. *)
Definition validate (raw : gmap string pyval)
  : config_error + configuration :=
  project ← attribute raw "project_id";
  dataset ← attribute raw "dataset_name";
  table ← attribute raw "table_name";
  cols ← attribute raw "columns";
  let batches := default (PyInt 3) (raw !! "max_batches") in
  path ← attribute raw "pointer_path";
  let format := default (PyStr "microseconds") (raw !! "time_format") in
  if negb (truthy path) then inl PointerPathNotSet else
  match as_int batches with
  | None => inl MaxBatchesNotPositive
  | Some n =>
      if n <=? 0 then inl MaxBatchesNotPositive else
      p ← require_str project;
      d ← require_str dataset;
      t ← require_str table;
      match as_list cols with
      | None => inl ColumnsNotAList
      | Some cs =>
          match parse_time_format format with
          | None => inl BadTimeFormat
          | Some tf => inr (Configuration p d t cs n path tf)
          end
      end
  end.

(** [get_credentials], lines 182-215. *)
Definition get_credentials (k : key_status) : option exception :=
  match k with
  | KeyAccepted => None
  | KeyNotJson => Some (ConfigurationException BadServiceAccountJson)
  | KeyAuthError => Some (ConfigurationException CredentialsAuthError)
  | KeyValueError => Some (ConfigurationException CredentialsValueError)
  end.

(** Lines 71-78: the exception of [get_credentials] or of the client's
    constructor is raised again. *)
Definition make_client (env : environment) : option exception :=
  match get_credentials (key env) with
  | Some e => Some e
  | None => ClientError <$> client_error env
  end.

(** Lines 88-102: [false] when a [ConfigurationException] is raised for
    the stored pointer.  A blank pointer is not looked at. *)
Definition pointer_format_ok (tf : time_format) (stored : string) : bool :=
  if nonempty stored && nonempty (strip stored) then
    match tf with
    | Microseconds => bool_decide (is_Some (int_of_str stored))
    | Timestamp => fromisoformat (replace "+00" "+00:00" stored)
    end
  else true.

(** Lines 81-109, the body of the [try]: [None] when one of
    [NotFoundException], [ValueError] or [ConfigurationException] is
    raised, which the [except] clause of line 111 catches. *)
Definition warm_start (tf : time_format) (store : option string)
  : option resolution :=
  stored ← store;
  if pointer_format_ok tf stored then
    match tf with
    | Microseconds =>
        usec ← int_of_str stored;
        Some (Resolution (str_of_int usec) (Some usec))
    | Timestamp => Some (Resolution stored None)
    end
  else None.

(** Lines 112-125, the [except] clause: a week before the clock reading. *)
Definition cold_start (tf : time_format) (now : Z) : resolution :=
  let week_ago := now - week in
  match tf with
  | Microseconds =>
      let usec := epoch_usec week_ago in
      Resolution (str_of_int usec) (Some usec)
  | Timestamp => Resolution (strftime week_ago) (Some (epoch_usec week_ago))
  end.

Definition resolve (tf : time_format) (store : option string) (now : Z)
  : resolution :=
  default (cold_start tf now) (warm_start tf store).

(** An f-string field. *)
Definition fmt (v : pyval) : string :=
  match v with PyStr s => s | _ => format_value v end.

(** Lines 132-140. *)
Definition where_clause (cfg : configuration) (res : resolution)
  : exception + string :=
  match cfg_time_format cfg with
  | Microseconds =>
      match pointer_epoch_usec res with
      | Some query_pointer =>
          inr (fmt (POINTER_PATH cfg) +:+ " > " +:+ str_of_int query_pointer)
      | None => inl UnboundLocalError
      end
  | Timestamp =>
      inr (fmt (POINTER_PATH cfg) +:+ " > TIMESTAMP('" +:+ pointer res +:+ "')")
  end.

(** The f-string of lines 142-149 around a WHERE condition. *)
Definition query_text (cfg : configuration) (cols condition : string)
  : string :=
  nl +:+ indent +:+ "SELECT " +:+ cols
  +:+ nl +:+ indent +:+ "FROM `" +:+ project_id cfg +:+ "."
  +:+ dataset_name cfg +:+ "." +:+ table_name cfg +:+ "`"
  +:+ nl +:+ indent +:+ "WHERE " +:+ condition
  +:+ nl +:+ indent +:+ "AND " +:+ fmt (POINTER_PATH cfg) +:+ " IS NOT NULL"
  +:+ nl +:+ indent +:+ "ORDER BY " +:+ fmt (POINTER_PATH cfg) +:+ " ASC"
  +:+ nl +:+ indent +:+ "LIMIT 1000"
  +:+ nl +:+ indent.

(** Lines 132-149: the query of one iteration. *)
Definition build_query (cfg : configuration) (res : resolution)
  : exception + string :=
  condition ← where_clause cfg res;
  match join ", " (columns cfg) with
  | None => inl TypeError
  | Some cols => inr (query_text cfg cols condition)
  end.

(** Lines 170-176, once a page that is not empty has been added. *)
Definition flush (env : environment) (query : string) (all_rows : list row)
  : outcome :=
  match all_rows with
  | [] => Outcome [Query query] None
  | _ =>
      Outcome [Query query; Save all_rows]
              (RequestFailedException <$> save_error env all_rows)
  end.

(** Lines 131-180, the [while True] loop; [fuel] bounds the number of
    iterations and [call] counts the queries already made. *)
Fixpoint paging (cfg : configuration) (env : environment) (res : resolution)
    (fuel : nat) (call : nat) (all_rows : list row) (batch_count : Z)
  : option outcome :=
  match fuel with
  | O => None
  | S fuel' =>
      match build_query cfg res with
      | inl e => Some (Outcome [] (Some e))
      | inr query =>
          match execute env call query with
          | Failure cause =>
              Some (Outcome [Query query]
                            (Some (RequestFailedException cause)))
          | Rows [] => Some (Outcome [Query query] None)
          | Rows rows =>
              let all_rows := all_rows ++ rows in
              let batch_count := batch_count + 1 in
              if (max_batches cfg <=? batch_count)
                 || (Z.of_nat (length rows) <? 1000)
              then Some (flush env query all_rows)
              else after (Query query)
                     <$> paging cfg env res fuel' (S call) all_rows batch_count
          end
      end
  end.

(** [Connector.collect]. *)
Definition collect (fuel : nat) (raw : gmap string pyval)
    (env : environment) : option outcome :=
  match validate raw with
  | inl why => Some (Outcome [] (Some (ConfigurationException why)))
  | inr cfg =>
      match make_client env with
      | Some e => Some (Outcome [] (Some e))
      | None =>
          let res :=
            resolve (cfg_time_format cfg) (stored_pointer env) (utcnow env) in
          after (SetPointer (pointer res))
            <$> paging cfg env res fuel 0 [] 0
      end
  end.

(** *** The checks of [validate] as a list

    What each check of lines 30-63 reports, in the order the code runs
    them: the five required attributes as they are read, then the pointer
    path, [max_batches], the three names, [columns] and [time_format].  A
    check on a missing attribute reports nothing, the read has reported
    it. *)
Definition missing (raw : gmap string pyval) (name : string)
  : list config_error :=
  match raw !! name with
  | None => [MissingAttribute name]
  | Some _ => []
  end.

Definition not_a_string (raw : gmap string pyval) (name : string)
  : list config_error :=
  match raw !! name with
  | Some v => match as_str v with Some _ => [] | None => [NotAString v] end
  | None => []
  end.

Definition violations (raw : gmap string pyval) : list config_error :=
  missing raw "project_id" ++ missing raw "dataset_name"
  ++ missing raw "table_name" ++ missing raw "columns"
  ++ missing raw "pointer_path"
  ++ match raw !! "pointer_path" with
     | Some v => if truthy v then [] else [PointerPathNotSet]
     | None => []
     end
  ++ match as_int (default (PyInt 3) (raw !! "max_batches")) with
     | Some n => if 0 <? n then [] else [MaxBatchesNotPositive]
     | None => [MaxBatchesNotPositive]
     end
  ++ not_a_string raw "project_id" ++ not_a_string raw "dataset_name"
  ++ not_a_string raw "table_name"
  ++ match raw !! "columns" with
     | Some v =>
         match as_list v with Some _ => [] | None => [ColumnsNotAList] end
     | None => []
     end
  ++ match parse_time_format
             (default (PyStr "microseconds") (raw !! "time_format")) with
     | Some _ => []
     | None => [BadTimeFormat]
     end.

(** What an accepted configuration looks like: the three names are
    strings and [columns] is a list, empty or not; the pointer path is
    any value that counts as true; [max_batches] (3 when absent) is a
    positive [int]; [time_format] (microseconds when absent) is one of
    the two names. *)
Definition accepted (raw : gmap string pyval) (cfg : configuration) : Prop :=
  raw !! "project_id" = Some (PyStr (project_id cfg))
  ∧ raw !! "dataset_name" = Some (PyStr (dataset_name cfg))
  ∧ raw !! "table_name" = Some (PyStr (table_name cfg))
  ∧ raw !! "columns" = Some (PyList (columns cfg))
  ∧ raw !! "pointer_path" = Some (POINTER_PATH cfg)
  ∧ truthy (POINTER_PATH cfg) = true
  ∧ as_int (default (PyInt 3) (raw !! "max_batches")) = Some (max_batches cfg)
  ∧ 0 < max_batches cfg
  ∧ parse_time_format (default (PyStr "microseconds") (raw !! "time_format"))
    = Some (cfg_time_format cfg).

(** *** Runs of the paging loop, page by page *)

(** The calls [call], ..., [call + k - 1] each return a page of at least
    1000 rows. *)
Definition full_pages (env : environment) (query : string) (call k : nat)
  : Prop :=
  ∀ i, (i < k)%nat →
    ∃ rows, execute env (call + i) query = Rows rows
            ∧ (1000 ≤ length rows)%nat.

(** The rows of the calls [call], ..., [call + k - 1], in order. *)
Definition fetched (env : environment) (query : string) (call k : nat)
  : list row :=
  concat ((λ i, rows_of (execute env i query)) <$> seq call k).

(** The iteration that ends the loop, for the response it receives. *)
Definition last_step (env : environment) (query : string) (call : nat)
    (all_rows : list row) : outcome :=
  match execute env call query with
  | Failure cause =>
      Outcome [Query query] (Some (RequestFailedException cause))
  | Rows [] => Outcome [Query query] None
  | Rows rows => flush env query (all_rows ++ rows)
  end.

(** The response to [call] ends the loop when [batch_count] pages have
    been added before it. *)
Definition stops (cfg : configuration) (env : environment) (query : string)
    (call : nat) (batch_count : Z) : Prop :=
  match execute env call query with
  | Failure _ => True
  | Rows [] => True
  | Rows rows =>
      max_batches cfg ≤ batch_count + 1 ∨ (length rows < 1000)%nat
  end.

Definition prepend (es : list event) (o : outcome) : outcome :=
  {| events := es ++ events o; raised := raised o |}.

(** The pointer of a cold start: a week before the clock reading, in the
    stored form of the time format. *)
Definition default_window (tf : time_format) (now : Z) : string :=
  match tf with
  | Microseconds => str_of_int (epoch_usec (now - week))
  | Timestamp => strftime (now - week)
  end.

(** The transport answers by the text of the query alone. *)
Definition deterministic (env : environment) : Prop :=
  ∀ i j text, execute env i text = execute env j text.

(** The transport honours [LIMIT 1000]. *)
Definition honours_limit (env : environment) : Prop :=
  ∀ i text rows, execute env i text = Rows rows → (length rows ≤ 1000)%nat.

(* ===================================================================== *)
(** ** Facts about the built-ins                                         *)
(* ===================================================================== *)

Lemma int_digits_uint d acc :
  int_digits true acc (NilEmpty.string_of_uint d) = Some (uint_acc d acc).
Proof. revert acc. induction d; intros acc; simpl; auto. Qed.

Lemma int_digits_uint_first d acc :
  d ≠ Nil →
  int_digits false acc (NilEmpty.string_of_uint d) = Some (uint_acc d acc).
Proof. destruct d; [done|..]; intros _; simpl; apply int_digits_uint. Qed.

Lemma uint_acc_pos d p : uint_acc d (Zpos p) = Zpos (Pos.of_uint_acc d p).
Proof.
  revert p. induction d; intros p; cbn [uint_acc Pos.of_uint_acc]; [done|..];
    rewrite <- IHd; f_equal; lia.
Qed.

Lemma uint_acc_zero d : uint_acc d 0 = Z.of_uint d.
Proof.
  unfold Z.of_uint. induction d; cbn [uint_acc Pos.of_uint]; [done|auto|..];
    apply (uint_acc_pos d).
Qed.

Lemma lstrip_uint space d :
  (∀ c, is_Some (digit_value c) → space c = false) →
  lstrip space (NilEmpty.string_of_uint d) = NilEmpty.string_of_uint d.
Proof. intros Hsp. destruct d; simpl; [done|..]; by rewrite Hsp. Qed.

Lemma rstrip_uint space d :
  (∀ c, is_Some (digit_value c) → space c = false) →
  rstrip space (NilEmpty.string_of_uint d) = NilEmpty.string_of_uint d.
Proof.
  intros Hsp. induction d; simpl; [done|..]; rewrite IHd;
    (destruct (NilEmpty.string_of_uint d); [by rewrite Hsp|done]).
Qed.

Lemma int_space_digit c : is_Some (digit_value c) → int_space c = false.
Proof.
  unfold digit_value, int_space. intros [d Hd].
  destruct (_ && _) eqn:Hr in Hd; [clear Hd|done].
  apply andb_prop in Hr as [H1%Z.leb_le H2%Z.leb_le].
  replace (_ <=? 13)%N with false by (symmetry; apply N.leb_gt; lia).
  replace (_ =? 32)%N with false by (symmetry; apply N.eqb_neq; lia).
  replace (_ =? 133)%N with false by (symmetry; apply N.eqb_neq; lia).
  replace (_ =? 160)%N with false by (symmetry; apply N.eqb_neq; lia).
  by rewrite andb_false_r.
Qed.

Lemma strip_str_of_int n :
  rstrip int_space (lstrip int_space (str_of_int n)) = str_of_int n.
Proof.
  pose proof int_space_digit as Hsp.
  unfold str_of_int.
  destruct (Z.to_int n) as [d|d]; simpl; unfold NilZero.string_of_uint.
  - destruct d; [done|..]; by rewrite lstrip_uint, rstrip_uint.
  - assert (∀ s, rstrip int_space s = s →
                 rstrip int_space (String "-" s) = String "-" s) as Hminus.
    { intros s Hs. simpl. rewrite Hs. by destruct s. }
    destruct d; [done|..]; apply Hminus, (rstrip_uint _ (_ d)), Hsp.
Qed.

(** [int(str(n))] is [n]. *)
Lemma int_of_str_str_of_int n : int_of_str (str_of_int n) = Some n.
Proof.
  unfold int_of_str. rewrite strip_str_of_int. unfold str_of_int.
  rewrite <- (DecimalZ.of_to n) at 2.
  destruct n as [|p|p]; [done|..]; simpl;
    pose proof (Unsigned.to_uint_nonnil p) as Hnil;
    unfold NilZero.string_of_uint, Z.of_int; rewrite <- uint_acc_zero.
  - destruct (Pos.to_uint p) eqn:Hd; [done|..]; simpl; apply int_digits_uint.
  - destruct (Pos.to_uint p) eqn:Hd; [done|..]; simpl;
      by rewrite int_digits_uint.
Qed.

(* ===================================================================== *)
(** ** Configuration checks                                              *)
(* ===================================================================== *)

Ltac unfold_raise := unfold mbind, raise_bind in *.

Lemma validate_violations raw :
  match validate raw with
  | inl why => head (violations raw) = Some why
  | inr cfg => violations raw = [] ∧ accepted raw cfg
  end.
Proof.
  unfold validate, violations, accepted, missing, not_a_string, attribute,
    require_str.
  unfold_raise.
  destruct (raw !! "project_id") as [project|]; [|done].
  destruct (raw !! "dataset_name") as [dataset|]; [|done].
  destruct (raw !! "table_name") as [table|]; [|done].
  destruct (raw !! "columns") as [cols|]; [|done].
  destruct (raw !! "pointer_path") as [path|]; [|done].
  cbn [app negb]. destruct (truthy path) eqn:Hpath; [|done]. cbn [app negb].
  destruct (as_int _) as [n|]; [|done].
  rewrite Z.leb_antisym. destruct (0 <? n) eqn:Hn; [|done].
  apply Z.ltb_lt in Hn. cbn [app negb].
  destruct project; cbn; try done. destruct dataset; cbn; try done.
  destruct table; cbn; try done. destruct cols; cbn; try done.
  destruct (parse_time_format _); cbn; [|done].
  repeat split; auto.
Qed.

(* ===================================================================== *)
(** ** The paging loop                                                   *)
(* ===================================================================== *)

Section Paging.

Variables (cfg : configuration) (env : environment) (res : resolution).
Variable query : string.
Hypothesis Hquery : build_query cfg res = inr query.

(** A page that keeps the loop going costs one unit of fuel. *)
Lemma paging_continue fuel call all_rows batch_count rows :
  execute env call query = Rows rows →
  (1000 ≤ length rows)%nat →
  batch_count + 1 < max_batches cfg →
  paging cfg env res (S fuel) call all_rows batch_count
  = after (Query query)
      <$> paging cfg env res fuel (S call) (all_rows ++ rows)
            (batch_count + 1).
Proof.
  intros Hrows Hlen Hmax. cbn [paging]. rewrite Hquery, Hrows.
  destruct rows as [|r rows]; [simpl in Hlen; lia|].
  replace (max_batches cfg <=? batch_count + 1) with false
    by (symmetry; apply Z.leb_gt; lia).
  replace (Z.of_nat (length (r :: rows)) <? 1000) with false
    by (symmetry; apply Z.ltb_ge; lia).
  done.
Qed.

(** A response that ends the loop. *)
Lemma paging_stop fuel call all_rows batch_count :
  stops cfg env query call batch_count →
  paging cfg env res (S fuel) call all_rows batch_count
  = Some (last_step env query call all_rows).
Proof.
  unfold stops, last_step. intros Hstop. cbn [paging]. rewrite Hquery.
  destruct (execute env call query) as [[|r rows]|cause]; [done| |done].
  replace ((max_batches cfg <=? batch_count + 1)
           || (Z.of_nat (length (r :: rows)) <? 1000)) with true; [done|].
  symmetry. apply orb_true_iff.
  destruct Hstop; [left; apply Z.leb_le|right; apply Z.ltb_lt]; lia.
Qed.

(** Every response either keeps the loop going or ends it. *)
Lemma continue_or_stop call batch_count :
  (∃ rows, execute env call query = Rows rows
           ∧ (1000 ≤ length rows)%nat ∧ batch_count + 1 < max_batches cfg)
  ∨ stops cfg env query call batch_count.
Proof.
  unfold stops.
  destruct (execute env call query) as [[|r rows]|cause]; [by right| |by right].
  destruct (decide (max_batches cfg ≤ batch_count + 1)); [right; by left|].
  destruct (decide (length (r :: rows) < 1000)%nat); [right; by right|].
  left. eexists. split; [done|]. lia.
Qed.

Lemma fetched_S call k :
  fetched env query call (S k)
  = rows_of (execute env call query) ++ fetched env query (S call) k.
Proof. done. Qed.

Lemma full_pages_S call k :
  full_pages env query call (S k) ↔
  (∃ rows, execute env call query = Rows rows ∧ (1000 ≤ length rows)%nat)
  ∧ full_pages env query (S call) k.
Proof.
  unfold full_pages. split.
  - intros Hfull. split.
    + destruct (Hfull O) as [rows Hrows]; [lia|].
      rewrite Nat.add_0_r in Hrows. eauto.
    + intros i Hi. destruct (Hfull (S i)) as [rows Hrows]; [lia|].
      rewrite Nat.add_succ_r in Hrows. eauto.
  - intros [Hfirst Hrest] [|i] Hi.
    + by rewrite Nat.add_0_r.
    + rewrite Nat.add_succ_r. apply Hrest. lia.
Qed.

Lemma prepend_after e es (o : option outcome) :
  after e <$> (prepend es <$> o) = prepend (e :: es) <$> o.
Proof. by destruct o. Qed.

Lemma prepend_nil (o : option outcome) : prepend [] <$> o = o.
Proof. by destruct o as [[]|]. Qed.

(** [k] full pages below the batch budget are [k] iterations. *)
Lemma paging_unroll k : ∀ fuel call all_rows batch_count,
  full_pages env query call k →
  batch_count + Z.of_nat k < max_batches cfg →
  paging cfg env res (k + fuel) call all_rows batch_count
  = prepend (replicate k (Query query))
      <$> paging cfg env res fuel (call + k)
            (all_rows ++ fetched env query call k)
            (batch_count + Z.of_nat k).
Proof.
  induction k as [|k IH]; intros fuel call all_rows batch_count Hfull Hmax.
  - rewrite prepend_nil, Nat.add_0_r, Z.add_0_r.
    unfold fetched. simpl. by rewrite app_nil_r.
  - apply full_pages_S in Hfull as [(rows & Hrows & Hlen) Hrest].
    cbn [Nat.add]. rewrite (paging_continue _ _ _ _ rows) by (done || lia).
    rewrite IH by (done || lia). rewrite prepend_after.
    rewrite fetched_S, Hrows. cbn [rows_of replicate].
    rewrite Nat.add_succ_r, app_assoc. cbn [Nat.add].
    by replace (batch_count + 1 + Z.of_nat k)
      with (batch_count + Z.of_nat (S k)) by lia.
Qed.

(** Every run of the loop is some full pages followed by one response
    that ends it. *)
Lemma paging_shape fuel : ∀ call all_rows batch_count out,
  paging cfg env res fuel call all_rows batch_count = Some out →
  ∃ k, full_pages env query call k
       ∧ ((0 < k)%nat → batch_count + Z.of_nat k < max_batches cfg)
       ∧ stops cfg env query (call + k) (batch_count + Z.of_nat k)
       ∧ out = prepend (replicate k (Query query))
                 (last_step env query (call + k)
                    (all_rows ++ fetched env query call k)).
Proof.
  induction fuel as [|fuel IH]; intros call all_rows batch_count out Hout;
    [done|].
  destruct (continue_or_stop call batch_count)
    as [(rows & Hrows & Hlen & Hmax)|Hstop].
  - rewrite (paging_continue _ _ _ _ rows) in Hout by done.
    destruct (paging cfg env res fuel _ _ _) as [out'|] eqn:Hrec; [|done].
    injection Hout as <-.
    apply IH in Hrec as (k & Hfull & Hbudget & Hstop & ->).
    exists (S k). rewrite Nat.add_succ_r, fetched_S, Hrows. cbn [rows_of].
    replace (batch_count + Z.of_nat (S k))
      with (batch_count + 1 + Z.of_nat k) by lia.
    split_and!.
    + apply full_pages_S. eauto.
    + intros _. destruct k; [lia|]. lia.
    + done.
    + by rewrite <- app_assoc.
  - rewrite paging_stop in Hout by done. injection Hout as <-.
    exists O. rewrite Nat.add_0_r, Z.add_0_r. split_and!.
    + intros i Hi. lia.
    + lia.
    + done.
    + unfold fetched, prepend. simpl. rewrite app_nil_r.
      by destruct (last_step _ _ _ _).
Qed.

(** The loop ends within the batch budget. *)
Lemma paging_terminates fuel : ∀ call all_rows batch_count,
  (0 < fuel)%nat →
  (Z.to_nat (max_batches cfg - batch_count) ≤ fuel)%nat →
  is_Some (paging cfg env res fuel call all_rows batch_count).
Proof.
  induction fuel as [|fuel IH]; intros call all_rows batch_count Hpos Hfuel;
    [lia|].
  destruct (continue_or_stop call batch_count)
    as [(rows & Hrows & Hlen & Hmax)|Hstop].
  - rewrite (paging_continue _ _ _ _ rows) by done.
    apply fmap_is_Some, IH; lia.
  - by rewrite paging_stop.
Qed.

End Paging.

(* ===================================================================== *)
(** ** Runs of [collect]                                                 *)
(* ===================================================================== *)

Lemma validated_max_batches raw cfg :
  validate raw = inr cfg → 0 < max_batches cfg.
Proof.
  intros Hcfg. pose proof (validate_violations raw) as Hv.
  rewrite Hcfg in Hv. unfold accepted in Hv. tauto.
Qed.

Lemma paging_build_error cfg env res e fuel call all_rows batch_count :
  build_query cfg res = inl e →
  paging cfg env res (S fuel) call all_rows batch_count
  = Some (Outcome [] (Some e)).
Proof. intros He. cbn [paging]. by rewrite He. Qed.

(** Past the configuration checks and the client, a run is the pointer
    assignment followed by the loop. *)
Lemma collect_validated fuel raw cfg env :
  validate raw = inr cfg →
  make_client env = None →
  collect fuel raw env
  = after (SetPointer
             (pointer (resolve (cfg_time_format cfg) (stored_pointer env)
                               (utcnow env))))
      <$> paging cfg env
            (resolve (cfg_time_format cfg) (stored_pointer env) (utcnow env))
            fuel 0 [] 0.
Proof. intros Hcfg Hclient. unfold collect. by rewrite Hcfg, Hclient. Qed.

(** [collect] returns or raises once the fuel covers the batch budget. *)
Lemma collect_terminates fuel raw env :
  (∀ cfg, validate raw = inr cfg → (Z.to_nat (max_batches cfg) ≤ fuel)%nat) →
  is_Some (collect fuel raw env).
Proof.
  intros Hfuel. unfold collect.
  destruct (validate raw) as [why|cfg] eqn:Hcfg; [done|].
  destruct (make_client env); [done|].
  pose proof (validated_max_batches _ _ Hcfg).
  specialize (Hfuel cfg eq_refl).
  apply fmap_is_Some.
  destruct (build_query cfg (resolve (cfg_time_format cfg) (stored_pointer env)
                               (utcnow env))) as [e|text] eqn:Hq.
  - destruct fuel; [lia|]. by erewrite paging_build_error.
  - eapply paging_terminates; [done|lia|]. by rewrite Z.sub_0_r.
Qed.

(** The events of the loop: the same query [n] times, then at most one
    call of the sink. *)
Lemma last_step_events env text call all_rows :
  ∃ saved, events (last_step env text call all_rows)
           = Query text :: (Save <$> saved)
           ∧ (length saved ≤ 1)%nat.
Proof.
  unfold last_step, flush.
  destruct (execute env call text) as [[|r rows]|cause];
    [exists []; simpl; split; [done|lia]|
    |exists []; simpl; split; [done|lia]].
  destruct (all_rows ++ r :: rows) as [|r' rows'] eqn:Happ.
  - exists []. simpl. split; [done|lia].
  - exists [r' :: rows']. simpl. split; [done|lia].
Qed.

Lemma queries_loop text k saved :
  queries (replicate k (Query text) ++ Query text :: (Save <$> saved))
  = replicate (S k) text.
Proof.
  induction k as [|k IH]; [|simpl in *; by f_equal].
  simpl. f_equal. induction saved; done.
Qed.

Lemma pointer_writes_loop text k saved :
  pointer_writes (replicate k (Query text) ++ Query text :: (Save <$> saved))
  = [].
Proof. induction k as [|k IH]; [|done]. simpl. induction saved; done. Qed.

Lemma saves_loop text k saved :
  saves (replicate k (Query text) ++ Query text :: (Save <$> saved)) = saved.
Proof.
  induction k as [|k IH]; [|done].
  simpl. induction saved; [done|]. simpl in *. by f_equal.
Qed.

(* ===================================================================== *)
(** ** Pointer resolution                                                *)
(* ===================================================================== *)

Lemma resolve_absent tf now : resolve tf None now = cold_start tf now.
Proof. done. Qed.

(** Under microseconds the [try] block succeeds exactly when [int]
    parses the stored string. *)
Lemma warm_start_microseconds s :
  warm_start Microseconds (Some s)
  = (λ n, Resolution (str_of_int n) (Some n)) <$> int_of_str s.
Proof.
  unfold warm_start, pointer_format_ok. cbn [mbind option_bind].
  destruct (nonempty s && nonempty (strip s));
    destruct (int_of_str s) as [n|]; done.
Qed.

(** Under timestamp the [try] block fails only for a stored string that
    is not blank and that [fromisoformat] rejects. *)
Lemma warm_start_timestamp s :
  warm_start Timestamp (Some s)
  = if nonempty s && nonempty (strip s)
       && negb (fromisoformat (replace "+00" "+00:00" s))
    then None else Some (Resolution s None).
Proof.
  unfold warm_start, pointer_format_ok. cbn [mbind option_bind].
  destruct (nonempty s && nonempty (strip s)); [|done].
  by destruct (fromisoformat _).
Qed.

(** A stored string that [int] rejects, a blank one included, is a cold
    start under microseconds. *)
Lemma resolve_microseconds_unparsable s now :
  int_of_str s = None →
  resolve Microseconds (Some s) now = cold_start Microseconds now.
Proof. intros Hs. unfold resolve. by rewrite warm_start_microseconds, Hs. Qed.

(** A stored string that is not blank and that [fromisoformat] rejects is
    a cold start under timestamp. *)
Lemma resolve_timestamp_unparsable s now :
  strip s ≠ "" →
  fromisoformat (replace "+00" "+00:00" s) = false →
  resolve Timestamp (Some s) now = cold_start Timestamp now.
Proof.
  intros Hblank Hs. unfold resolve. rewrite warm_start_timestamp, Hs.
  destruct s as [|c s]; [done|].
  unfold nonempty at 1 2. destruct (strip (String c s)); done.
Qed.

(** C2. Resolution is specified to take the cold-start path for an
    absent, a blank or an unparsable stored pointer under both time
    formats.  Under [timestamp] the code does not: a stored pointer that
    is empty or all white space skips the format check, is assigned back
    to the pointer as it is, and becomes the bound [TIMESTAMP('')] of the
    query; no look-back window is computed.  (Under [microseconds] the
    same string reaches [int], which raises, and the run starts cold:
    [resolve_microseconds_unparsable].) *)
Theorem blank_timestamp_pointer_is_kept s now :
  strip s = "" →
  resolve Timestamp (Some s) now = Resolution s None
  ∧ to_query_literal Timestamp (resolve Timestamp (Some s) now)
    = Some ("TIMESTAMP('" +:+ s +:+ "')").
Proof.
  intros Hblank.
  assert (resolve Timestamp (Some s) now = Resolution s None) as ->; [|done].
  unfold resolve. rewrite warm_start_timestamp, Hblank.
  by rewrite andb_false_r.
Qed.

(** C6. Warm-start round trip.  Under microseconds, for a non-negative
    [n], resolving the stored pointer [str(n)] gives the native pointer
    [n] and assigns [str(n)] back to the pointer.  Under timestamp, a
    stored string that [fromisoformat] accepts once [+00] is rewritten to
    [+00:00] is assigned back character for character. *)
Theorem warm_start_round_trip :
  (∀ n now, 0 ≤ n →
     resolve Microseconds (Some (str_of_int n)) now
     = Resolution (str_of_int n) (Some n))
  ∧ (∀ s now, fromisoformat (replace "+00" "+00:00" s) = true →
       resolve Timestamp (Some s) now = Resolution s None).
Proof.
  split.
  - intros n now _. unfold resolve.
    by rewrite warm_start_microseconds, int_of_str_str_of_int.
  - intros s now Hs. unfold resolve. rewrite warm_start_timestamp, Hs.
    by rewrite andb_false_r.
Qed.

(** C8, as the code has it.  Under microseconds a stored pointer is a
    warm start exactly when [int] parses it, whatever the sign of the
    integer: the native pointer is that integer and the pointer is stored
    again in canonical decimal form.  A string that [int] rejects is a
    cold start. *)
Theorem microseconds_warm_start_iff_int s now :
  resolve Microseconds (Some s) now
  = match int_of_str s with
    | Some n => Resolution (str_of_int n) (Some n)
    | None => cold_start Microseconds now
    end.
Proof.
  unfold resolve. rewrite warm_start_microseconds.
  by destruct (int_of_str s).
Qed.

(* ===================================================================== *)
(** ** The text of the query                                             *)
(* ===================================================================== *)

Lemma append_assoc (a b c : string) : (a +:+ b) +:+ c = a +:+ (b +:+ c).
Proof.
  induction a as [|x a IH]; [done|].
  change (String x ((a +:+ b) +:+ c) = String x (a +:+ (b +:+ c))).
  by f_equal.
Qed.

(** The f-string is the six clauses of the range scan, one a line. *)
Lemma query_text_layout cfg cols bound :
  query_text cfg cols (fmt (POINTER_PATH cfg) +:+ " > " +:+ bound)
  = layout (range_scan cols (project_id cfg) (dataset_name cfg)
              (table_name cfg) (fmt (POINTER_PATH cfg)) bound 1000).
Proof.
  unfold layout, range_scan, query_text. cbn [foldr].
  rewrite !append_assoc. reflexivity.
Qed.

(** The query of an iteration is the range scan whose bound is the
    literal that the time format gives the resolved pointer. *)
Lemma build_query_shape cfg res text :
  build_query cfg res = inr text →
  ∃ cols bound,
    join ", " (columns cfg) = Some cols
    ∧ to_query_literal (cfg_time_format cfg) res = Some bound
    ∧ text = layout (range_scan cols (project_id cfg) (dataset_name cfg)
                       (table_name cfg) (fmt (POINTER_PATH cfg)) bound 1000).
Proof.
  unfold build_query, where_clause, to_query_literal. unfold_raise.
  intros Htext.
  destruct (cfg_time_format cfg).
  - destruct (pointer_epoch_usec res) as [usec|]; [|discriminate Htext].
    destruct (join ", " (columns cfg)) as [cols|]; [|discriminate Htext].
    injection Htext as <-. exists cols, (str_of_int usec).
    split; [reflexivity|]. split; [reflexivity|]. apply query_text_layout.
  - destruct (join ", " (columns cfg)) as [cols|]; [|discriminate Htext].
    injection Htext as <-.
    exists cols, ("TIMESTAMP('" +:+ pointer res +:+ "')").
    split; [reflexivity|]. split; [reflexivity|].
    exact (query_text_layout cfg cols ("TIMESTAMP('" +:+ pointer res +:+ "')")).
Qed.

(* ===================================================================== *)
(** ** The shape of a run                                                *)
(* ===================================================================== *)

(** A run that builds its query is the pointer assignment, [k] full
    pages, and the response that ends the loop. *)
Lemma collect_shape fuel raw cfg env text :
  validate raw = inr cfg →
  make_client env = None →
  build_query cfg (resolve (cfg_time_format cfg) (stored_pointer env)
                     (utcnow env)) = inr text →
  (Z.to_nat (max_batches cfg) ≤ fuel)%nat →
  ∃ k, full_pages env text 0 k
       ∧ ((0 < k)%nat → Z.of_nat k < max_batches cfg)
       ∧ stops cfg env text k (Z.of_nat k)
       ∧ collect fuel raw env
         = Some (prepend
                   (SetPointer
                      (pointer (resolve (cfg_time_format cfg)
                                  (stored_pointer env) (utcnow env)))
                    :: replicate k (Query text))
                   (last_step env text k (fetched env text 0 k))).
Proof.
  intros Hcfg Hclient Htext Hfuel.
  pose proof (validated_max_batches _ _ Hcfg) as Hmax.
  rewrite (collect_validated _ _ _ _ Hcfg Hclient).
  destruct (paging_terminates cfg env _ text Htext fuel 0 [] 0)
    as [out Hout]; [lia|by rewrite Z.sub_0_r|].
  rewrite Hout.
  apply (paging_shape _ _ _ _ Htext) in Hout as (k & Hfull & Hbudget & Hstop & ->).
  exists k. by rewrite Z.add_0_l in *.
Qed.

(** A run whose query cannot be built makes no call after the pointer
    assignment. *)
Lemma collect_build_error fuel raw cfg env e :
  validate raw = inr cfg →
  make_client env = None →
  build_query cfg (resolve (cfg_time_format cfg) (stored_pointer env)
                     (utcnow env)) = inl e →
  (Z.to_nat (max_batches cfg) ≤ fuel)%nat →
  collect fuel raw env
  = Some (Outcome [SetPointer
                     (pointer (resolve (cfg_time_format cfg)
                                 (stored_pointer env) (utcnow env)))]
                  (Some e)).
Proof.
  intros Hcfg Hclient He Hfuel.
  pose proof (validated_max_batches _ _ Hcfg) as Hmax.
  rewrite (collect_validated _ _ _ _ Hcfg Hclient).
  destruct fuel; [lia|]. by erewrite paging_build_error.
Qed.

(** Conversely, [k] full pages below the budget and a response that ends
    the loop determine the run. *)
Lemma collect_after_full_pages fuel raw cfg env text k :
  validate raw = inr cfg →
  make_client env = None →
  build_query cfg (resolve (cfg_time_format cfg) (stored_pointer env)
                     (utcnow env)) = inr text →
  (Z.to_nat (max_batches cfg) ≤ fuel)%nat →
  full_pages env text 0 k →
  Z.of_nat k < max_batches cfg →
  stops cfg env text k (Z.of_nat k) →
  collect fuel raw env
  = Some (prepend
            (SetPointer
               (pointer (resolve (cfg_time_format cfg)
                           (stored_pointer env) (utcnow env)))
             :: replicate k (Query text))
            (last_step env text k (fetched env text 0 k))).
Proof.
  intros Hcfg Hclient Htext Hfuel Hfull Hbudget Hstop.
  rewrite (collect_validated _ _ _ _ Hcfg Hclient).
  replace fuel with (k + S (fuel - S k))%nat by lia.
  rewrite (paging_unroll cfg env _ text Htext) by (done || lia).
  rewrite (paging_stop cfg env _ text Htext) by by rewrite Z.add_0_l.
  done.
Qed.

Lemma flush_rows env text rows :
  rows ≠ [] →
  flush env text rows
  = Outcome [Query text; Save rows]
            (RequestFailedException <$> save_error env rows).
Proof. by destruct rows. Qed.

Lemma length_fetched env text k : ∀ call,
  full_pages env text call k →
  (1000 * k ≤ length (fetched env text call k))%nat.
Proof.
  induction k as [|k IH]; intros call Hfull; [simpl; lia|].
  apply full_pages_S in Hfull as [(rows & Hrows & Hlen) Hrest].
  rewrite fetched_S, Hrows, length_app. cbn [rows_of].
  specialize (IH _ Hrest). lia.
Qed.

(** C1. The loop is specified to flush whatever it has accumulated when
    a page comes back empty.  The code leaves the loop at [if not rows:
    break] without calling the sink: after [k] full pages (at least one,
    fewer than the batch budget) and an empty page, [collect] returns
    normally, its calls are the pointer assignment and [k + 1] queries,
    and the [1000 * k] or more rows it fetched are never saved. *)
Theorem empty_page_after_full_pages_skips_save fuel raw cfg env text k :
  validate raw = inr cfg →
  make_client env = None →
  build_query cfg (resolve (cfg_time_format cfg) (stored_pointer env)
                     (utcnow env)) = inr text →
  (Z.to_nat (max_batches cfg) ≤ fuel)%nat →
  (0 < k)%nat →
  full_pages env text 0 k →
  Z.of_nat k < max_batches cfg →
  execute env k text = Rows [] →
  ∃ out, collect fuel raw env = Some out
         ∧ raised out = None
         ∧ queries (events out) = replicate (S k) text
         ∧ saves (events out) = []
         ∧ (1000 * k ≤ length (fetched env text 0 k))%nat.
Proof.
  intros Hcfg Hclient Htext Hfuel Hpos Hfull Hbudget Hempty.
  eexists. split.
  { apply (collect_after_full_pages _ _ cfg _ text k); try done.
    unfold stops. by rewrite Hempty. }
  unfold last_step. rewrite Hempty. cbn [prepend events raised].
  split_and!; [done| | |by apply length_fetched].
  - apply (queries_loop text k []).
  - apply (saves_loop text k []).
Qed.

(** C3, as the code has it.  When the query of page [k + 1] fails after
    [k] full pages, [collect] raises [RequestFailedException], the sink is
    never called and the rows of the [k] pages are dropped.  The pointer
    has been assigned once, at resolution and before the first query,
    with the resolved value; nothing assigns it after that. *)
Theorem failed_page_aborts_without_save fuel raw cfg env text k cause :
  validate raw = inr cfg →
  make_client env = None →
  build_query cfg (resolve (cfg_time_format cfg) (stored_pointer env)
                     (utcnow env)) = inr text →
  (Z.to_nat (max_batches cfg) ≤ fuel)%nat →
  full_pages env text 0 k →
  Z.of_nat k < max_batches cfg →
  execute env k text = Failure cause →
  ∃ out,
    collect fuel raw env = Some out
    ∧ raised out = Some (RequestFailedException cause)
    ∧ saves (events out) = []
    ∧ events out
      = SetPointer (pointer (resolve (cfg_time_format cfg)
                               (stored_pointer env) (utcnow env)))
        :: replicate (S k) (Query text)
    ∧ pointer_writes (events out)
      = [pointer (resolve (cfg_time_format cfg) (stored_pointer env)
                    (utcnow env))].
Proof.
  intros Hcfg Hclient Htext Hfuel Hfull Hbudget Hfail.
  eexists. split.
  { apply (collect_after_full_pages _ _ cfg _ text k); try done.
    unfold stops. by rewrite Hfail. }
  unfold last_step. rewrite Hfail. cbn [prepend events raised].
  split_and!; [done| | |].
  - apply (saves_loop text k []).
  - by rewrite replicate_S_end.
  - rewrite <- app_comm_cons.
    change (pointer_writes (SetPointer ?p :: ?l))
      with (p :: pointer_writes l).
    f_equal. apply (pointer_writes_loop text k []).
Qed.

(** The calls of a run that builds its query: the pointer assignment,
    the same query once or more, within the batch budget, and at most one
    call of the sink. *)
Lemma collect_trace fuel raw cfg env text :
  validate raw = inr cfg →
  make_client env = None →
  build_query cfg (resolve (cfg_time_format cfg) (stored_pointer env)
                     (utcnow env)) = inr text →
  (Z.to_nat (max_batches cfg) ≤ fuel)%nat →
  ∃ out k saved,
    collect fuel raw env = Some out
    ∧ events out
      = SetPointer (pointer (resolve (cfg_time_format cfg)
                               (stored_pointer env) (utcnow env)))
        :: replicate k (Query text) ++ Query text :: (Save <$> saved)
    ∧ (length saved ≤ 1)%nat
    ∧ Z.of_nat (S k) ≤ max_batches cfg.
Proof.
  intros Hcfg Hclient Htext Hfuel.
  pose proof (validated_max_batches _ _ Hcfg) as Hmax.
  destruct (collect_shape _ _ _ _ _ Hcfg Hclient Htext Hfuel)
    as (k & Hfull & Hbudget & Hstop & Hout).
  destruct (last_step_events env text k (fetched env text 0 k))
    as (saved & Hlast & Hlen).
  eexists _, k, saved. split; [exact Hout|].
  cbn [prepend events]. rewrite Hlast. split_and!; [done|done|].
  destruct k; [lia|]. specialize (Hbudget ltac:(lia)). lia.
Qed.

(** C10. The pointer is assigned during resolution, before the first
    query: in every run that gets past the configuration checks and the
    client, whatever the transport and the sink do, the first call is
    the pointer assignment and no other follows.  The value is the
    default window on a cold start and, for a microseconds pointer that
    [int] parses, the canonical decimal string of the integer. *)
Theorem pointer_assigned_before_first_query fuel raw cfg env :
  validate raw = inr cfg →
  make_client env = None →
  (Z.to_nat (max_batches cfg) ≤ fuel)%nat →
  ∃ out rest,
    collect fuel raw env = Some out
    ∧ events out
      = SetPointer (pointer (resolve (cfg_time_format cfg)
                               (stored_pointer env) (utcnow env))) :: rest
    ∧ pointer_writes rest = []
    ∧ (warm_start (cfg_time_format cfg) (stored_pointer env) = None →
       pointer (resolve (cfg_time_format cfg) (stored_pointer env)
                  (utcnow env))
       = default_window (cfg_time_format cfg) (utcnow env))
    ∧ (∀ s n, cfg_time_format cfg = Microseconds →
         stored_pointer env = Some s → int_of_str s = Some n →
         pointer (resolve (cfg_time_format cfg) (stored_pointer env)
                    (utcnow env)) = str_of_int n).
Proof.
  intros Hcfg Hclient Hfuel.
  assert (∃ out rest, collect fuel raw env = Some out
    ∧ events out
      = SetPointer (pointer (resolve (cfg_time_format cfg)
                               (stored_pointer env) (utcnow env))) :: rest
    ∧ pointer_writes rest = []) as (out & rest & Hout & Hev & Hrest).
  { destruct (build_query cfg (resolve (cfg_time_format cfg)
                (stored_pointer env) (utcnow env))) as [e|text] eqn:Htext.
    - eexists _, []. split; [by eapply collect_build_error|done].
    - destruct (collect_trace _ _ _ _ _ Hcfg Hclient Htext Hfuel)
        as (out & k & saved & Hout & Hev & _).
      eexists out, _. split_and!; [done|done|].
      apply pointer_writes_loop. }
  exists out, rest. split_and!; [done|done|done| |].
  - intros Hcold. unfold resolve. rewrite Hcold.
    by destruct (cfg_time_format cfg).
  - intros s n -> -> Hn.
    by rewrite microseconds_warm_start_iff_int, Hn.
Qed.

(** Under microseconds the pointer string and the native pointer of a
    resolution agree, on a warm and on a cold start. *)
Lemma resolve_microseconds_pointer store now :
  ∃ n, resolve Microseconds store now = Resolution (str_of_int n) (Some n).
Proof.
  destruct store as [s|]; [|by eexists].
  rewrite microseconds_warm_start_iff_int.
  destruct (int_of_str s) as [n|]; by eexists.
Qed.

(** The bound of the query is written from the pointer that the
    resolution assigned. *)
Lemma query_literal_of_pointer tf store now bound :
  to_query_literal tf (resolve tf store now) = Some bound →
  bound = match tf with
          | Microseconds => pointer (resolve tf store now)
          | Timestamp =>
              "TIMESTAMP('" +:+ pointer (resolve tf store now) +:+ "')"
          end.
Proof.
  destruct tf; cbn [to_query_literal].
  - destruct (resolve_microseconds_pointer store now) as [n ->].
    cbn. by intros [= <-].
  - by intros [= <-].
Qed.

(** C7. Every query a run executes is the range scan of the design:
    SELECT the joined columns FROM the back-quoted project.dataset.table
    WHERE the pointer path [>] the bound AND the path IS NOT NULL ORDER BY
    the path ASC LIMIT 1000, one clause a line.  The bound is the literal
    of the resolved pointer: its decimal digits under microseconds,
    [TIMESTAMP('...')] around the pointer string under timestamp. *)
Theorem query_is_strict_range_scan fuel raw cfg env :
  validate raw = inr cfg →
  (Z.to_nat (max_batches cfg) ≤ fuel)%nat →
  ∃ out,
    collect fuel raw env = Some out
    ∧ ∀ text, text ∈ queries (events out) →
        ∃ cols bound,
          join ", " (columns cfg) = Some cols
          ∧ to_query_literal (cfg_time_format cfg)
              (resolve (cfg_time_format cfg) (stored_pointer env)
                 (utcnow env)) = Some bound
          ∧ bound
            = match cfg_time_format cfg with
              | Microseconds =>
                  pointer (resolve (cfg_time_format cfg)
                             (stored_pointer env) (utcnow env))
              | Timestamp =>
                  "TIMESTAMP('"
                  +:+ pointer (resolve (cfg_time_format cfg)
                                 (stored_pointer env) (utcnow env))
                  +:+ "')"
              end
          ∧ text = layout (range_scan cols (project_id cfg)
                             (dataset_name cfg) (table_name cfg)
                             (fmt (POINTER_PATH cfg)) bound 1000).
Proof.
  intros Hcfg Hfuel.
  destruct (make_client env) as [e|] eqn:Hclient.
  { eexists. split; [unfold collect; by rewrite Hcfg, Hclient|].
    intros text Hin. by apply elem_of_nil in Hin. }
  destruct (build_query cfg (resolve (cfg_time_format cfg)
              (stored_pointer env) (utcnow env))) as [e|text] eqn:Htext.
  { eexists. split; [by eapply collect_build_error|].
    intros text Hin. by apply elem_of_nil in Hin. }
  destruct (collect_trace _ _ _ _ _ Hcfg Hclient Htext Hfuel)
    as (out & k & saved & Hout & Hev & _).
  exists out. split; [done|]. intros text' Hin.
  rewrite Hev in Hin. cbn [queries omap] in Hin.
  change (text' ∈ queries (replicate k (Query text)
                             ++ Query text :: (Save <$> saved))) in Hin.
  rewrite queries_loop in Hin. apply elem_of_replicate_inv in Hin as ->.
  destruct (build_query_shape _ _ _ Htext) as (cols & bound & Hcols & Hb & ->).
  exists cols, bound. split_and!; [done|done| |done].
  pose proof (query_literal_of_pointer _ _ _ _ Hb) as Hlit.
  by destruct (cfg_time_format cfg).
Qed.

(* ===================================================================== *)
(** ** Counting pages and saved rows                                     *)
(* ===================================================================== *)

Lemma saves_run p text k o :
  saves (events (prepend (SetPointer p :: replicate k (Query text)) o))
  = saves (events o).
Proof. cbn. induction k as [|k IH]; done. Qed.

Lemma queries_run p text k o :
  queries (events (prepend (SetPointer p :: replicate k (Query text)) o))
  = replicate k text ++ queries (events o).
Proof. cbn. induction k as [|k IH]; [done|]. cbn. by f_equal. Qed.

Lemma last_step_queries env text call all_rows :
  queries (events (last_step env text call all_rows)) = [text].
Proof.
  destruct (last_step_events env text call all_rows) as (saved & -> & _).
  apply (queries_loop text 0 saved).
Qed.

Lemma last_step_saves env text call all_rows rows :
  execute env call text = Rows rows →
  rows ≠ [] →
  saves (events (last_step env text call all_rows)) = [all_rows ++ rows].
Proof.
  intros Hrows Hne. unfold last_step. rewrite Hrows.
  destruct rows as [|r rows]; [done|].
  rewrite flush_rows; [done|]. by destruct all_rows.
Qed.

Lemma queries_of_run p text k env call all_rows :
  queries (events (prepend (SetPointer p :: replicate k (Query text))
                     (last_step env text call all_rows)))
  = replicate (S k) text.
Proof.
  by rewrite queries_run, last_step_queries, <- replicate_S_end.
Qed.

Lemma length_fetched_exact env text k : ∀ call,
  (∀ i, (i < k)%nat →
     ∃ rows, execute env (call + i) text = Rows rows
             ∧ length rows = 1000%nat) →
  length (fetched env text call k) = (1000 * k)%nat.
Proof.
  induction k as [|k IH]; intros call Hfull; [done|].
  rewrite fetched_S, length_app.
  destruct (Hfull O) as (rows & Hrows & Hlen); [lia|].
  rewrite Nat.add_0_r in Hrows. rewrite Hrows. cbn [rows_of].
  rewrite IH; [lia|]. intros i Hi.
  destruct (Hfull (S i)) as (rows' & Hrows' & Hlen'); [lia|].
  rewrite Nat.add_succ_r in Hrows'. eauto.
Qed.

Lemma fetched_deterministic env text page k : ∀ call,
  deterministic env →
  execute env 0 text = Rows page →
  fetched env text call k = concat (replicate k page).
Proof.
  induction k as [|k IH]; intros call Hdet Hpage; [done|].
  rewrite fetched_S, (Hdet call 0%nat), Hpage, IH by done. done.
Qed.

(** C5. The paging loop ends for every configuration and every transport,
    after at most [max_batches] queries.  With a transport that honours
    the limit of 1000 rows, page [i + 1] is followed by another query
    exactly when it returned 1000 rows and [i + 1] is below
    [max_batches].  When each of the first [max_batches] queries returns
    1000 rows, the run makes [max_batches] queries and hands
    [max_batches * 1000] rows to the sink in one call; when the first
    query returns a single row, the run makes one query and hands that
    row to the sink. *)
Theorem paging_stays_within_budget fuel raw cfg env :
  validate raw = inr cfg →
  (Z.to_nat (max_batches cfg) ≤ fuel)%nat →
  ∃ out,
    collect fuel raw env = Some out
    ∧ Z.of_nat (length (queries (events out))) ≤ max_batches cfg
    ∧ ∀ text,
        make_client env = None →
        build_query cfg (resolve (cfg_time_format cfg) (stored_pointer env)
                           (utcnow env)) = inr text →
        ∃ n,
          queries (events out) = replicate n text
          ∧ (honours_limit env →
             ∀ i, (i < n)%nat →
               (S i < n)%nat ↔
               (∃ rows, execute env i text = Rows rows
                        ∧ length rows = 1000%nat)
               ∧ Z.of_nat (S i) < max_batches cfg)
          ∧ ((∀ i, Z.of_nat i < max_batches cfg →
                ∃ rows, execute env i text = Rows rows
                        ∧ length rows = 1000%nat) →
             n = Z.to_nat (max_batches cfg)
             ∧ ∃ rows, saves (events out) = [rows]
                       ∧ Z.of_nat (length rows) = max_batches cfg * 1000)
          ∧ (∀ r, execute env 0 text = Rows [r] →
               n = 1%nat ∧ saves (events out) = [[r]]).
Proof.
  intros Hcfg Hfuel.
  pose proof (validated_max_batches _ _ Hcfg) as Hmax.
  destruct (collect_terminates fuel raw env) as [out Hout].
  { intros cfg' Hcfg'. rewrite Hcfg in Hcfg'. by injection Hcfg' as <-. }
  exists out. split; [done|].
  assert (∀ text,
    make_client env = None →
    build_query cfg (resolve (cfg_time_format cfg) (stored_pointer env)
                       (utcnow env)) = inr text →
    ∃ k, full_pages env text 0 k
         ∧ ((0 < k)%nat → Z.of_nat k < max_batches cfg)
         ∧ stops cfg env text k (Z.of_nat k)
         ∧ out = prepend
                   (SetPointer
                      (pointer (resolve (cfg_time_format cfg)
                                  (stored_pointer env) (utcnow env)))
                    :: replicate k (Query text))
                   (last_step env text k (fetched env text 0 k)))
    as Hshape.
  { intros text Hclient Htext.
    destruct (collect_shape _ _ _ _ _ Hcfg Hclient Htext Hfuel)
      as (k & Hfull & Hbudget & Hstop & Hrun).
    exists k. split_and!; try done. congruence. }
  split.
  { destruct (make_client env) as [e|] eqn:Hclient.
    { unfold collect in Hout. rewrite Hcfg, Hclient in Hout.
      injection Hout as <-. simpl. lia. }
    destruct (build_query cfg (resolve (cfg_time_format cfg)
                (stored_pointer env) (utcnow env))) as [e|text] eqn:Htext.
    { erewrite collect_build_error in Hout by done.
      injection Hout as <-. simpl. lia. }
    destruct (Hshape text eq_refl eq_refl) as (k & _ & Hbudget & _ & ->).
    rewrite queries_of_run, length_replicate.
    destruct k; [lia|]. specialize (Hbudget ltac:(lia)). lia. }
  intros text Hclient Htext.
  destruct (Hshape text Hclient Htext) as (k & Hfull & Hbudget & Hstop & ->).
  exists (S k). split; [apply queries_of_run|]. split_and!.
  - intros Hlimit i Hi. split.
    + intros Hnext. destruct (Hfull i) as (rows & Hrows & Hlen); [lia|].
      split.
      * exists rows. split; [done|].
        pose proof (Hlimit _ _ _ Hrows). lia.
      * specialize (Hbudget ltac:(lia)). lia.
    + intros [(rows & Hrows & Hlen) Hbelow].
      destruct (decide (i = k)) as [->|]; [|lia].
      unfold stops in Hstop. rewrite Hrows in Hstop.
      destruct rows; [done|]. lia.
  - intros Hall.
    assert (max_batches cfg ≤ Z.of_nat k + 1) as Hlast.
    { destruct (decide (max_batches cfg ≤ Z.of_nat k + 1)); [done|].
      destruct (Hall k) as (rows & Hrows & Hlen); [lia|].
      unfold stops in Hstop. rewrite Hrows in Hstop.
      destruct rows; [done|]. lia. }
    assert (Z.of_nat (S k) = max_batches cfg) as Hn.
    { destruct k; [lia|]. specialize (Hbudget ltac:(lia)). lia. }
    split; [lia|].
    destruct (Hall k) as (rows & Hrows & Hlen); [lia|].
    eexists. rewrite saves_run.
    rewrite (last_step_saves _ _ _ _ rows) by (done || by destruct rows).
    split; [done|]. rewrite length_app, Hlen, length_fetched_exact; [lia|].
    intros i Hi. apply Hall. lia.
  - intros r Hrow.
    assert (k = 0%nat) as ->.
    { destruct k; [done|]. destruct (Hfull 0%nat) as (rows & Hrows & Hlen);
        [lia|]. cbn [Nat.add] in Hrows. rewrite Hrow in Hrows.
      injection Hrows as <-.
      simpl in Hlen. lia. }
    split; [done|]. rewrite saves_run.
    by rewrite (last_step_saves _ _ _ _ [r]).
Qed.

(** C9. Within a run the query never changes: the text handed to the
    transport is the same string in every iteration.  So, with a
    transport that answers by the text of the query, every response
    equals the first one, and when the first page is full and the batch
    budget is two or more the run makes [max_batches] queries and hands
    the sink that many copies of the same page. *)
Theorem every_page_repeats_the_first_query fuel raw cfg env text :
  validate raw = inr cfg →
  make_client env = None →
  build_query cfg (resolve (cfg_time_format cfg) (stored_pointer env)
                     (utcnow env)) = inr text →
  (Z.to_nat (max_batches cfg) ≤ fuel)%nat →
  ∃ out n,
    collect fuel raw env = Some out
    ∧ (0 < n)%nat
    ∧ queries (events out) = replicate n text
    ∧ (deterministic env →
       (λ i, execute env i text) <$> seq 0 n
       = replicate n (execute env 0 text))
    ∧ (deterministic env →
       ∀ page, execute env 0 text = Rows page →
         (1000 ≤ length page)%nat →
         2 ≤ max_batches cfg →
         n = Z.to_nat (max_batches cfg)
         ∧ saves (events out) = [concat (replicate n page)]).
Proof.
  intros Hcfg Hclient Htext Hfuel.
  destruct (collect_shape _ _ _ _ _ Hcfg Hclient Htext Hfuel)
    as (k & Hfull & Hbudget & Hstop & Hrun).
  eexists _, (S k). split; [exact Hrun|]. split; [lia|].
  split; [apply queries_of_run|]. split.
  - intros Hdet. generalize (S k) as n. intros n.
    generalize 0%nat at 1 as start. 
    induction n as [|n IH]; intros start; [done|].
    cbn [seq fmap list_fmap replicate]. f_equal; [apply Hdet|apply IH].
  - intros Hdet page Hpage Hlen Hmax.
    unfold stops in Hstop. rewrite (Hdet k 0%nat), Hpage in Hstop.
    assert (page ≠ []) as Hne by (intros ->; simpl in Hlen; lia).
    assert (max_batches cfg ≤ Z.of_nat k + 1) as Hlast.
    { destruct page; [done|]. destruct Hstop; [done|lia]. }
    assert (Z.of_nat (S k) = max_batches cfg) as Hn.
    { destruct k; [lia|]. specialize (Hbudget ltac:(lia)). lia. }
    split; [lia|]. rewrite saves_run.
    rewrite (last_step_saves _ _ _ _ page);
      [|by rewrite (Hdet k 0%nat)|done].
    rewrite (fetched_deterministic _ _ page) by done.
    rewrite replicate_S_end, concat_app. simpl. by rewrite app_nil_r.
Qed.

(* ===================================================================== *)
(** ** What [validate] accepts, and in which order it rejects            *)
(* ===================================================================== *)

Lemma accepted_no_violation raw cfg : accepted raw cfg → violations raw = [].
Proof.
  unfold accepted, violations, missing, not_a_string.
  intros (-> & -> & -> & -> & -> & -> & -> & Hmax & ->). cbn.
  by replace (0 <? max_batches cfg) with true by (symmetry; by apply Z.ltb_lt).
Qed.

Lemma accepted_unique raw cfg cfg' :
  accepted raw cfg → accepted raw cfg' → cfg = cfg'.
Proof.
  unfold accepted. destruct cfg, cfg'. cbn.
  intros (H1 & H2 & H3 & H4 & H5 & _ & H6 & _ & H7).
  intros (H1' & H2' & H3' & H4' & H5' & _ & H6' & _ & H7').
  congruence.
Qed.

(** C4, as the code has it.  [validate] accepts a raw configuration
    exactly when the three names are strings and [columns] is a list
    (either may be empty), the pointer path counts as true, [max_batches]
    is a positive [int] and [time_format] is one of the two names.  The
    checks run in the order: the required attributes as they are read
    ([project_id], [dataset_name], [table_name], [columns],
    [pointer_path]), the pointer path, [max_batches], the three names,
    [columns], [time_format]; the first violation in that order is the
    one raised, a missing attribute included, as a
    [ConfigurationException] and before any call on a collaborator. *)
Theorem validate_accepts_and_orders raw :
  (∀ cfg, validate raw = inr cfg ↔ accepted raw cfg)
  ∧ (∀ why, validate raw = inl why ↔ head (violations raw) = Some why)
  ∧ (∀ fuel env,
       match validate raw with
       | inl why =>
           collect fuel raw env
           = Some (Outcome [] (Some (ConfigurationException why)))
       | inr _ => True
       end).
Proof.
  pose proof (validate_violations raw) as Hv. split_and!.
  - intros cfg. split.
    + intros Hcfg. rewrite Hcfg in Hv. tauto.
    + intros Hacc. destruct (validate raw) as [why|cfg'].
      * by rewrite (accepted_no_violation _ _ Hacc) in Hv.
      * f_equal. destruct Hv as [_ Hacc']. by eapply accepted_unique.
  - intros why. split.
    + intros Hwhy. by rewrite Hwhy in Hv.
    + intros Hhead. destruct (validate raw) as [why'|cfg].
      * congruence.
      * destruct Hv as [Hnone _]. by rewrite Hnone in Hhead.
  - intros fuel env. unfold collect. by destruct (validate raw).
Qed.

(* ===================================================================== *)
(** ** Exceptions of a run                                               *)
(* ===================================================================== *)

(** [join] fails exactly on a list with an item that is not a [str]. *)
Lemma join_is_Some sep items :
  is_Some (join sep items) ↔ Forall (λ v, is_Some (as_str v)) items.
Proof.
  induction items as [|v items IH].
  - split; [constructor|by eexists].
  - destruct items as [|w items].
    + cbn [join]. by rewrite Forall_singleton.
    + change (join sep (v :: w :: items))
        with (s ← as_str v; t ← join sep (w :: items);
              Some (s +:+ sep +:+ t)).
      split.
      * intros [r Hr]. destruct (as_str v) as [s|] eqn:Hv; [|done].
        destruct (join sep (w :: items)) as [t|] eqn:Ht; [|done].
        constructor; [by eexists|]. apply IH. by eexists.
      * inversion 1 as [|? ? [s Hs] Hrest]; subst.
        apply IH in Hrest as [t Ht]. rewrite Hs. cbn [mbind option_bind].
        rewrite Ht. by eexists.
Qed.

(** The local [pointer_epoch_usec] is bound whenever the loop reads it:
    the only way the query is not built is the [TypeError] of [join]. *)
Lemma build_query_error cfg store now e :
  build_query cfg (resolve (cfg_time_format cfg) store now) = inl e →
  e = TypeError ∧ join ", " (columns cfg) = None.
Proof.
  unfold build_query, where_clause. unfold_raise.
  destruct (cfg_time_format cfg).
  - destruct (resolve_microseconds_pointer store now) as [n ->].
    cbn [pointer_epoch_usec].
    destruct (join ", " (columns cfg)); [done|]. by intros [= <-].
  - destruct (join ", " (columns cfg)); [done|]. by intros [= <-].
Qed.

(** X1. The two optional attributes take their defaults: an accepted
    configuration without [max_batches] has a budget of 3 batches, and
    one without [time_format] uses microseconds. *)
Theorem optional_attributes_default raw cfg :
  validate raw = inr cfg →
  (raw !! "max_batches" = None → max_batches cfg = 3)
  ∧ (raw !! "time_format" = None → cfg_time_format cfg = Microseconds).
Proof.
  intros Hcfg. pose proof (validate_violations raw) as Hv.
  rewrite Hcfg in Hv.
  destruct Hv as (_ & _ & _ & _ & _ & _ & _ & Hmax & _ & Htf).
  split; intros Hnone; rewrite Hnone in *; cbn in *; congruence.
Qed.

(** X2. When the secret is rejected or the client cannot be built,
    [collect] raises before it reads or assigns the pointer and before
    any query: a rejected secret is a [ConfigurationException], an
    exception of the client's constructor is raised again as it is. *)
Theorem client_failure_precedes_every_call fuel raw cfg env e :
  validate raw = inr cfg →
  make_client env = Some e →
  collect fuel raw env = Some (Outcome [] (Some e))
  ∧ (key env ≠ KeyAccepted → ∃ why, e = ConfigurationException why)
  ∧ (key env = KeyAccepted →
     ∃ name, client_error env = Some name ∧ e = ClientError name).
Proof.
  intros Hcfg Hclient. split_and!.
  - unfold collect. by rewrite Hcfg, Hclient.
  - intros Hkey. unfold make_client, get_credentials in Hclient.
    destruct (key env); [done|..]; injection Hclient as <-; by eexists.
  - intros Hkey. unfold make_client in Hclient. rewrite Hkey in Hclient.
    cbn in Hclient. destruct (client_error env) as [name|]; [|done].
    injection Hclient as <-. by eexists.
Qed.

(** X3. A column that is not a string passes the configuration checks
    ([columns] only has to be a list) and makes the run fail with
    [TypeError] when the query is put together: the pointer has been
    assigned by then, no query is executed and the sink is not called. *)
Theorem non_string_column_raises_type_error fuel raw cfg env :
  validate raw = inr cfg →
  make_client env = None →
  (Z.to_nat (max_batches cfg) ≤ fuel)%nat →
  (∃ v, v ∈ columns cfg ∧ as_str v = None) →
  collect fuel raw env
  = Some (Outcome
            [SetPointer (pointer (resolve (cfg_time_format cfg)
                                    (stored_pointer env) (utcnow env)))]
            (Some TypeError)).
Proof.
  intros Hcfg Hclient Hfuel (v & Hin & Hv).
  destruct (build_query cfg (resolve (cfg_time_format cfg)
              (stored_pointer env) (utcnow env))) as [e|text] eqn:Htext.
  - destruct (build_query_error _ _ _ _ Htext) as [-> _].
    by apply collect_build_error.
  - destruct (build_query_shape _ _ _ Htext) as (cols & _ & Hcols & _).
    assert (is_Some (join ", " (columns cfg))) as Hsome by by eexists.
    apply join_is_Some in Hsome. rewrite Forall_forall in Hsome.
    destruct (Hsome v Hin) as [s Hs]. congruence.
Qed.

(** X4. Past the configuration checks and the client, [collect] raises
    neither [ConfigurationException] nor [UnboundLocalError]: the
    exception for a malformed stored pointer is caught and turned into a
    cold start, and the local [pointer_epoch_usec], left unbound by a
    timestamp warm start, is only read under microseconds. *)
Theorem resolution_never_raises fuel raw cfg env :
  validate raw = inr cfg →
  make_client env = None →
  (Z.to_nat (max_batches cfg) ≤ fuel)%nat →
  ∃ out,
    collect fuel raw env = Some out
    ∧ raised out ≠ Some UnboundLocalError
    ∧ ∀ why, raised out ≠ Some (ConfigurationException why).
Proof.
  intros Hcfg Hclient Hfuel.
  destruct (build_query cfg (resolve (cfg_time_format cfg)
              (stored_pointer env) (utcnow env))) as [e|text] eqn:Htext.
  - destruct (build_query_error _ _ _ _ Htext) as [-> _].
    eexists. split; [by apply collect_build_error|]. done.
  - destruct (collect_shape _ _ _ _ _ Hcfg Hclient Htext Hfuel)
      as (k & _ & _ & _ & Hout).
    eexists. split; [exact Hout|]. cbn [prepend raised].
    unfold last_step, flush.
    destruct (execute env k text) as [[|r rows]|cause]; [done| |done].
    destruct (fetched env text 0 k ++ r :: rows); [done|]. cbn [raised].
    destruct (save_error env _); done.
Qed.

(* ===================================================================== *)
(** ** What the sink receives                                            *)
(* ===================================================================== *)

Lemma fetched_snoc env text k : ∀ call,
  fetched env text call (S k)
  = fetched env text call k ++ rows_of (execute env (call + k) text).
Proof.
  induction k as [|k IH]; intros call.
  - rewrite Nat.add_0_r. unfold fetched. simpl. by rewrite app_nil_r.
  - rewrite fetched_S, IH, (fetched_S _ _ call k), Nat.add_succ_r.
    by rewrite app_assoc.
Qed.

Lemma length_fetched_le env text k : ∀ call,
  honours_limit env →
  (length (fetched env text call k) ≤ 1000 * k)%nat.
Proof.
  induction k as [|k IH]; intros call Hlimit; [done|].
  rewrite fetched_S, length_app. specialize (IH (S call) Hlimit).
  assert (length (rows_of (execute env call text)) ≤ 1000)%nat; [|lia].
  destruct (execute env call text) as [rows|cause] eqn:Hrows; [|simpl; lia].
  by apply (Hlimit call text).
Qed.

(** A run that builds its query, by the response that ends its loop. *)
Lemma collect_outcome fuel raw cfg env text :
  validate raw = inr cfg →
  make_client env = None →
  build_query cfg (resolve (cfg_time_format cfg) (stored_pointer env)
                     (utcnow env)) = inr text →
  (Z.to_nat (max_batches cfg) ≤ fuel)%nat →
  ∃ k out,
    Z.of_nat (S k) ≤ max_batches cfg
    ∧ collect fuel raw env = Some out
    ∧ queries (events out) = replicate (S k) text
    ∧ match execute env k text with
      | Failure cause =>
          events out
          = SetPointer (pointer (resolve (cfg_time_format cfg)
                                   (stored_pointer env) (utcnow env)))
            :: replicate (S k) (Query text)
          ∧ raised out = Some (RequestFailedException cause)
      | Rows [] =>
          events out
          = SetPointer (pointer (resolve (cfg_time_format cfg)
                                   (stored_pointer env) (utcnow env)))
            :: replicate (S k) (Query text)
          ∧ raised out = None
      | Rows _ =>
          events out
          = SetPointer (pointer (resolve (cfg_time_format cfg)
                                   (stored_pointer env) (utcnow env)))
            :: replicate (S k) (Query text)
               ++ [Save (fetched env text 0 (S k))]
          ∧ fetched env text 0 (S k) ≠ []
          ∧ raised out
            = RequestFailedException
                <$> save_error env (fetched env text 0 (S k))
      end.
Proof.
  intros Hcfg Hclient Htext Hfuel.
  pose proof (validated_max_batches _ _ Hcfg) as Hmax.
  destruct (collect_shape _ _ _ _ _ Hcfg Hclient Htext Hfuel)
    as (k & Hfull & Hbudget & Hstop & Hout).
  eexists k, _. split.
  { destruct k; [lia|]. specialize (Hbudget ltac:(lia)). lia. }
  split; [exact Hout|]. split; [apply queries_of_run|].
  cbn [prepend events raised]. rewrite fetched_snoc. cbn [Nat.add].
  unfold last_step.
  destruct (execute env k text) as [[|r rows]|cause] eqn:Hlast;
    cbn [rows_of events raised].
  - split; [|done]. by rewrite <- app_comm_cons, <- replicate_S_end.
  - assert (fetched env text 0 k ++ r :: rows ≠ []) as Hne
      by by destruct (fetched env text 0 k).
    rewrite flush_rows by done. cbn [events raised]. split_and!; [|done|done].
    rewrite <- app_comm_cons. f_equal.
    by rewrite replicate_S_end, <- app_assoc.
  - split; [|done]. by rewrite <- app_comm_cons, <- replicate_S_end.
Qed.

(** X5. When the first page comes back empty the run is one query and
    nothing else: the pointer is assigned, the sink is not called and
    [collect] returns normally. *)
Theorem empty_first_page_is_a_no_op fuel raw cfg env text :
  validate raw = inr cfg →
  make_client env = None →
  build_query cfg (resolve (cfg_time_format cfg) (stored_pointer env)
                     (utcnow env)) = inr text →
  (Z.to_nat (max_batches cfg) ≤ fuel)%nat →
  execute env 0 text = Rows [] →
  collect fuel raw env
  = Some (Outcome
            [ SetPointer (pointer (resolve (cfg_time_format cfg)
                                     (stored_pointer env) (utcnow env)));
              Query text ]
            None).
Proof.
  intros Hcfg Hclient Htext Hfuel Hempty.
  pose proof (validated_max_batches _ _ Hcfg) as Hmax.
  rewrite (collect_after_full_pages _ _ cfg _ text 0); try done.
  - unfold last_step. by rewrite Hempty.
  - intros i Hi. lia.
  - unfold stops. by rewrite Hempty.
Qed.

(** X6. The sink is called at most once in a run, as the last call, and
    never with an empty list: what it receives is every page fetched in
    the run, in the order of the queries. *)
Theorem sink_called_last_with_all_rows fuel raw cfg env text :
  validate raw = inr cfg →
  make_client env = None →
  build_query cfg (resolve (cfg_time_format cfg) (stored_pointer env)
                     (utcnow env)) = inr text →
  (Z.to_nat (max_batches cfg) ≤ fuel)%nat →
  ∃ out n,
    collect fuel raw env = Some out
    ∧ queries (events out) = replicate n text
    ∧ (length (saves (events out)) ≤ 1)%nat
    ∧ ∀ rows, rows ∈ saves (events out) →
        rows = fetched env text 0 n
        ∧ rows ≠ []
        ∧ last (events out) = Some (Save rows).
Proof.
  intros Hcfg Hclient Htext Hfuel.
  destruct (collect_outcome _ _ _ _ _ Hcfg Hclient Htext Hfuel)
    as (k & out & _ & Hout & Hq & Hcase).
  exists out, (S k). split; [done|]. split; [done|].
  assert (∀ p, saves (SetPointer p :: replicate (S k) (Query text)) = [])
    as Hnone.
  { intros p. rewrite replicate_S_end.
    apply (saves_loop text k []). }
  assert (∀ p rows,
    saves (SetPointer p :: replicate (S k) (Query text) ++ [Save rows])
    = [rows]) as Hone.
  { intros p rows. rewrite replicate_S_end, <- app_assoc.
    apply (saves_loop text k [rows]). }
  destruct (execute env k text) as [[|r rows]|cause].
  - destruct Hcase as [-> _]. rewrite Hnone. split; [simpl; lia|].
    intros rows Hin. by apply elem_of_nil in Hin.
  - destruct Hcase as (-> & Hne & _). rewrite Hone. split; [simpl; lia|].
    intros rows' Hin. apply list_elem_of_singleton in Hin as ->.
    split_and!; [done|done|].
    by rewrite app_comm_cons, last_snoc.
  - destruct Hcase as [-> _]. rewrite Hnone. split; [simpl; lia|].
    intros rows Hin. by apply elem_of_nil in Hin.
Qed.

(** X7. Inside the loop every failure becomes a
    [RequestFailedException]: a run that builds its query raises exactly
    when its last query fails or the sink raises, with the cause of that
    failure, and returns normally otherwise. *)
Theorem loop_failures_are_request_failed fuel raw cfg env text :
  validate raw = inr cfg →
  make_client env = None →
  build_query cfg (resolve (cfg_time_format cfg) (stored_pointer env)
                     (utcnow env)) = inr text →
  (Z.to_nat (max_batches cfg) ≤ fuel)%nat →
  ∃ out n,
    collect fuel raw env = Some out
    ∧ queries (events out) = replicate (S n) text
    ∧ raised out
      = match execute env n text with
        | Failure cause => Some (RequestFailedException cause)
        | Rows [] => None
        | Rows _ =>
            RequestFailedException
              <$> save_error env (fetched env text 0 (S n))
        end.
Proof.
  intros Hcfg Hclient Htext Hfuel.
  destruct (collect_outcome _ _ _ _ _ Hcfg Hclient Htext Hfuel)
    as (k & out & _ & Hout & Hq & Hcase).
  exists out, k. split; [done|]. split; [done|].
  destruct (execute env k text) as [[|r rows]|cause]; tauto.
Qed.

(** X8. With a transport that honours the limit of 1000 rows, the sink
    never receives more than [1000 * max_batches] rows. *)
Theorem saved_rows_within_budget fuel raw cfg env :
  validate raw = inr cfg →
  (Z.to_nat (max_batches cfg) ≤ fuel)%nat →
  honours_limit env →
  ∃ out,
    collect fuel raw env = Some out
    ∧ ∀ rows, rows ∈ saves (events out) →
        Z.of_nat (length rows) ≤ 1000 * max_batches cfg.
Proof.
  intros Hcfg Hfuel Hlimit.
  destruct (make_client env) as [e|] eqn:Hclient.
  { eexists. split; [unfold collect; by rewrite Hcfg, Hclient|].
    intros rows Hin. by apply elem_of_nil in Hin. }
  destruct (build_query cfg (resolve (cfg_time_format cfg)
              (stored_pointer env) (utcnow env))) as [e|text] eqn:Htext.
  { eexists. split; [by eapply collect_build_error|].
    intros rows Hin. by apply elem_of_nil in Hin. }
  destruct (collect_outcome _ _ _ _ _ Hcfg Hclient Htext Hfuel)
    as (k & out & Hk & Hout & Hq & _).
  destruct (sink_called_last_with_all_rows _ _ _ _ _ Hcfg Hclient Htext Hfuel)
    as (out' & n & Hout' & Hq' & _ & Hsaved).
  assert (out' = out) as -> by congruence.
  assert (n = S k) as ->.
  { rewrite Hq in Hq'. apply (f_equal length) in Hq'.
    by rewrite !length_replicate in Hq'. }
  exists out. split; [done|]. intros rows Hin.
  destruct (Hsaved rows Hin) as (-> & _ & _).
  pose proof (length_fetched_le env text (S k) 0%nat Hlimit). lia.
Qed.

(** X9. Under microseconds the pointer a run assigns is read back
    unchanged by the next run: resolving it again, at any later clock
    reading, gives the same pointer and the same query bound, whether
    the first resolution was a warm or a cold start. *)
Theorem microseconds_pointer_is_stable store now later :
  resolve Microseconds
    (Some (pointer (resolve Microseconds store now))) later
  = resolve Microseconds store now.
Proof.
  destruct (resolve_microseconds_pointer store now) as [n ->].
  cbn [pointer].
  by rewrite microseconds_warm_start_iff_int, int_of_str_str_of_int.
Qed.

(** X10. A page that is not empty and that is short, or that uses up the
    batch budget, ends the run with one call of the sink: after [k] full
    pages, the rows of all [k + 1] pages are handed over together, and
    an exception of the sink is raised as [RequestFailedException]. *)
Theorem last_page_flushes_everything fuel raw cfg env text k rows :
  validate raw = inr cfg →
  make_client env = None →
  build_query cfg (resolve (cfg_time_format cfg) (stored_pointer env)
                     (utcnow env)) = inr text →
  (Z.to_nat (max_batches cfg) ≤ fuel)%nat →
  full_pages env text 0 k →
  Z.of_nat k < max_batches cfg →
  execute env k text = Rows rows →
  rows ≠ [] →
  max_batches cfg ≤ Z.of_nat k + 1 ∨ (length rows < 1000)%nat →
  collect fuel raw env
  = Some (Outcome
            (SetPointer (pointer (resolve (cfg_time_format cfg)
                                    (stored_pointer env) (utcnow env)))
             :: replicate (S k) (Query text)
                ++ [Save (fetched env text 0 k ++ rows)])
            (RequestFailedException
               <$> save_error env (fetched env text 0 k ++ rows))).
Proof.
  intros Hcfg Hclient Htext Hfuel Hfull Hbudget Hrows Hne Hlast.
  rewrite (collect_after_full_pages _ _ cfg _ text k); try done.
  - unfold last_step. rewrite Hrows. destruct rows as [|r rows]; [done|].
    rewrite flush_rows by by destruct (fetched env text 0 k).
    unfold prepend. cbn [events raised]. do 2 f_equal.
    rewrite <- app_comm_cons. f_equal.
    by rewrite replicate_S_end, <- app_assoc.
  - unfold stops. rewrite Hrows. by destruct rows.
Qed.

(** The fields of [strftime] are read off the whole seconds. *)
Lemma strftime_fields t :
  t / usec_per_day = t / usec_per_second / 86400
  ∧ t mod usec_per_day / usec_per_second = (t / usec_per_second) mod 86400.
Proof.
  unfold usec_per_day, usec_per_second. split.
  - rewrite (Z.mul_comm 86400). by rewrite Z.div_div by lia.
  - rewrite (Z.mul_comm 86400), Z.rem_mul_r by lia.
    rewrite (Z.add_comm (t mod 1000000)), Z.mul_comm, Z.div_add_l by lia.
    rewrite (Z.div_small (t mod 1000000)); [lia|].
    apply Z.mod_pos_bound. lia.
Qed.

(** X11. The look-back pointer of a timestamp cold start is cut to whole
    seconds: the microseconds of the clock reading do not show in it, so
    it names an instant at or before a week ago, less than a second
    earlier. *)
Theorem cold_timestamp_pointer_whole_seconds now :
  pointer (cold_start Timestamp now)
  = pointer (cold_start Timestamp (now - (now - week) mod usec_per_second))
  ∧ 0 ≤ (now - week) mod usec_per_second < usec_per_second.
Proof.
  split; [|apply Z.mod_pos_bound; by unfold usec_per_second].
  cbn [cold_start pointer]. unfold strftime.
  destruct (strftime_fields (now - week)) as [-> ->].
  destruct (strftime_fields
              (now - (now - week) mod usec_per_second - week)) as [-> ->].
  replace ((now - (now - week) mod usec_per_second - week) / usec_per_second)
    with ((now - week) / usec_per_second); [done|].
  unfold usec_per_second.
  pose proof (Z.div_mod (now - week) 1000000 ltac:(lia)) as Hdm.
  replace (now - (now - week) mod 1000000 - week)
    with (((now - week) / 1000000) * 1000000) by lia.
  by rewrite Z.div_mul by lia.
Qed.

End Connector.

(* ===================================================================== *)
(** ** The theorems at sample inputs                                     *)
(* ===================================================================== *)

Lemma full_page_length : length full_page = 1000%nat.
Proof. vm_compute. reflexivity. Defined.

(** The failing input of C1: a full page, then an empty one, under the
    default budget of three batches.  The run returns normally after two
    queries and the thousand rows are not handed to the sink. *)
Lemma empty_page_after_full_page_run :
  ∃ out,
    collect sample_fromisoformat sample_format 3 raw_default
      env_full_then_empty = Some out
    ∧ raised out = None
    ∧ queries (events out) = [sample_query; sample_query]
    ∧ saves (events out) = []
    ∧ (1000 ≤ length (fetched env_full_then_empty sample_query 0 1))%nat.
Proof.
  destruct (empty_page_after_full_pages_skips_save
              sample_fromisoformat sample_format 3 raw_default cfg_default
              env_full_then_empty sample_query 1)
    as (out & Hout & Hraised & Hqueries & Hsaves & Hlen).
  - vm_compute. reflexivity.
  - reflexivity.
  - vm_compute. reflexivity.
  - vm_compute. lia.
  - lia.
  - intros i Hi. assert (i = 0%nat) as -> by lia.
    exists full_page. split; [reflexivity|]. rewrite full_page_length. lia.
  - vm_compute. reflexivity.
  - reflexivity.
  - exists out. repeat split; assumption.
Defined.

(** The failing input of C2: a stored pointer of two spaces under
    [timestamp].  It is kept, and the bound of the query is built from
    it; the look-back window would have been 2023-12-25 00:00:00+00. *)
Lemma blank_timestamp_pointer_run :
  strip "  " = ""
  ∧ resolve sample_fromisoformat Timestamp (Some "  ") 1704067200123456
    = Resolution "  " None
  ∧ to_query_literal Timestamp
      (resolve sample_fromisoformat Timestamp (Some "  ") 1704067200123456)
    = Some "TIMESTAMP('  ')"
  ∧ cold_start Timestamp 1704067200123456
    = Resolution "2023-12-25 00:00:00+00" (Some 1703462400123456).
Proof.
  split; [reflexivity|].
  destruct (blank_timestamp_pointer_is_kept sample_fromisoformat
              "  " 1704067200123456) as [Hkept Hbound]; [reflexivity|].
  split; [exact Hkept|]. split; [exact Hbound|].
  vm_compute. reflexivity.
Defined.

(** The same input through [collect], under [raw_timestamp]. *)
Lemma blank_timestamp_pointer_collect :
  validate raw_timestamp = inr cfg_timestamp
  ∧ collect sample_fromisoformat sample_format 3 raw_timestamp
      env_blank_pointer
    = Some (Outcome
              [ SetPointer "  ";
                Query (layout (range_scan "ts, message" "proj" "logs"
                                 "events" "ts" "TIMESTAMP('  ')" 1000)) ]
              None).
Proof. vm_compute. split; reflexivity. Qed.

(** C3 as stated fails on a cold start whose first query fails: the run
    raises [RequestFailedException] and the sink is not called, but the
    pointer, absent before the run, has been assigned the look-back
    window. *)
Lemma failed_query_after_cold_start_sets_pointer :
  ∃ out,
    collect sample_fromisoformat sample_format 3 raw_default
      env_cold_failing = Some out
    ∧ raised out = Some (RequestFailedException "connection reset")
    ∧ saves (events out) = []
    ∧ stored_pointer env_cold_failing = None
    ∧ pointer_writes (events out) = ["1703462400123456"].
Proof. eexists. vm_compute. repeat split; reflexivity. Qed.

(** C3 at a sample input: a full page, then a failure. *)
Lemma failed_second_page_run :
  ∃ out,
    collect sample_fromisoformat sample_format 3 raw_default
      env_full_then_failure = Some out
    ∧ raised out = Some (RequestFailedException "timeout")
    ∧ saves (events out) = []
    ∧ events out
      = [SetPointer "1700000000000000"; Query sample_query;
         Query sample_query]
    ∧ pointer_writes (events out) = ["1700000000000000"].
Proof.
  destruct (failed_page_aborts_without_save
              sample_fromisoformat sample_format 3 raw_default cfg_default
              env_full_then_failure sample_query 1 "timeout")
    as (out & Hout & Hraised & Hsaves & Hevents & Hpointer).
  - vm_compute. reflexivity.
  - reflexivity.
  - vm_compute. reflexivity.
  - vm_compute. lia.
  - intros i Hi. assert (i = 0%nat) as -> by lia.
    exists full_page. split; [reflexivity|]. rewrite full_page_length. lia.
  - vm_compute. reflexivity.
  - reflexivity.
  - exists out. repeat split; assumption.
Defined.

(** C4 as stated fails: empty names and an empty column list are
    accepted, and a configuration with a project that is not a string
    and an empty pointer path is rejected for the pointer path. *)
Lemma validate_accepts_empty_names :
  validate raw_empty_names
  = inr (Configuration "" "" "" [] 3 (PyStr "ts") Microseconds)
  ∧ validate raw_two_faults = inl PointerPathNotSet
  ∧ violations raw_two_faults = [PointerPathNotSet; NotAString (PyInt 5)].
Proof. vm_compute. repeat split; reflexivity. Qed.

(** C6 at sample inputs. *)
Lemma warm_start_round_trip_samples :
  resolve sample_fromisoformat Microseconds (Some "1700000000000000")
    1704067200123456
  = Resolution "1700000000000000" (Some 1700000000000000)
  ∧ resolve sample_fromisoformat Timestamp (Some "2024-01-01 10:00:00+00")
      1704067200123456
    = Resolution "2024-01-01 10:00:00+00" None
  ∧ resolve sample_fromisoformat Timestamp
      (Some "2024-01-01 10:00:00+00:00") 1704067200123456
    = Resolution "2024-01-01 10:00:00+00:00" None.
Proof.
  destruct (warm_start_round_trip sample_fromisoformat) as [Husec Hts].
  split; [|split].
  - apply (Husec 1700000000000000 1704067200123456). lia.
  - apply Hts. vm_compute. reflexivity.
  - apply Hts. vm_compute. reflexivity.
Defined.

(** C7 at a sample input. *)
Lemma query_is_strict_range_scan_sample :
  ∃ out,
    collect sample_fromisoformat sample_format 3 raw_default env_same_page
    = Some out
    ∧ ∀ text, text ∈ queries (events out) →
        ∃ cols bound,
          join ", " (columns cfg_default) = Some cols
          ∧ to_query_literal Microseconds
              (resolve sample_fromisoformat Microseconds
                 (Some "1700000000000000") 1704067200123456) = Some bound
          ∧ bound = "1700000000000000"
          ∧ text = layout (range_scan cols "proj" "logs" "events" "ts"
                             bound 1000).
Proof.
  apply (query_is_strict_range_scan sample_fromisoformat sample_format 3
           raw_default cfg_default env_same_page).
  - vm_compute. reflexivity.
  - vm_compute. lia.
Defined.

(** C8 as stated fails: a stored pointer that denotes a negative integer
    is a warm start. *)
Lemma negative_pointer_is_warm_start :
  int_of_str "-5" = Some (-5)
  ∧ warm_start sample_fromisoformat Microseconds (Some "-5")
    = Some (Resolution "-5" (Some (-5)))
  ∧ resolve sample_fromisoformat Microseconds (Some "-5") 1704067200123456
    = Resolution "-5" (Some (-5))
  ∧ cold_start Microseconds 1704067200123456
    = Resolution "1703462400123456" (Some 1703462400123456).
Proof. vm_compute. repeat split; reflexivity. Qed.

(** C5 at sample inputs: three full pages under the default budget, and
    a first page of one row. *)
Lemma paging_budget_samples :
  (∃ out rows,
     collect sample_fromisoformat sample_format 3 raw_default env_same_page
     = Some out
     ∧ queries (events out) = [sample_query; sample_query; sample_query]
     ∧ saves (events out) = [rows]
     ∧ Z.of_nat (length rows) = 3000)
  ∧ (∃ out,
       collect sample_fromisoformat sample_format 3 raw_default env_one_row
       = Some out
       ∧ queries (events out) = [sample_query]
       ∧ saves (events out) = [[sample_row 0]]).
Proof.
  split.
  - destruct (paging_stays_within_budget sample_fromisoformat sample_format
                3 raw_default cfg_default env_same_page)
      as (out & Hout & Hlen & Hloop);
      [vm_compute; reflexivity|vm_compute; lia|].
    destruct (Hloop sample_query) as (n & Hq & Hcont & Hfull & Hshort);
      [reflexivity|vm_compute; reflexivity|].
    destruct Hfull as (Hn & rows & Hsaves & Hrows).
    { intros i Hi. exists full_page.
      split; [reflexivity|apply full_page_length]. }
    exists out, rows. rewrite Hn in Hq. repeat split; assumption.
  - destruct (paging_stays_within_budget sample_fromisoformat sample_format
                3 raw_default cfg_default env_one_row)
      as (out & Hout & Hlen & Hloop);
      [vm_compute; reflexivity|vm_compute; lia|].
    destruct (Hloop sample_query) as (n & Hq & Hcont & Hfull & Hshort);
      [reflexivity|vm_compute; reflexivity|].
    destruct (Hshort (sample_row 0) eq_refl) as [Hn Hsaves].
    exists out. rewrite Hn in Hq. repeat split; assumption.
Defined.

(** C9 at a sample input: the same page for every query, three times in
    the rows handed to the sink. *)
Lemma same_page_saved_three_times :
  ∃ out,
    collect sample_fromisoformat sample_format 3 raw_default env_same_page
    = Some out
    ∧ queries (events out) = [sample_query; sample_query; sample_query]
    ∧ saves (events out) = [full_page ++ full_page ++ full_page].
Proof.
  assert (deterministic env_same_page) as Hdet by (intros i j text; reflexivity).
  destruct (every_page_repeats_the_first_query sample_fromisoformat
              sample_format 3 raw_default cfg_default env_same_page
              sample_query)
    as (out & n & Hout & Hpos & Hq & Hsame & Hdup);
    [vm_compute; reflexivity|reflexivity|vm_compute; reflexivity
    |vm_compute; lia|].
  destruct (Hdup Hdet full_page eq_refl) as [Hn Hsaves];
    [rewrite full_page_length; lia|simpl; lia|].
  exists out. rewrite Hn in Hq, Hsaves. split; [exact Hout|].
  split; [exact Hq|]. rewrite Hsaves. cbn [replicate concat Z.to_nat].
  change (Z.to_nat (max_batches cfg_default)) with 3%nat.
  cbn [replicate concat]. by rewrite app_nil_r.
Defined.

(** C10 at a sample input: the pointer, absent before the run, is
    assigned although the only query fails. *)
Lemma pointer_assigned_before_failed_query :
  ∃ out rest,
    collect sample_fromisoformat sample_format 3 raw_default
      env_cold_failing = Some out
    ∧ events out = SetPointer "1703462400123456" :: rest
    ∧ pointer_writes rest = []
    ∧ raised out = Some (RequestFailedException "connection reset").
Proof.
  destruct (pointer_assigned_before_first_query sample_fromisoformat
              sample_format 3 raw_default cfg_default env_cold_failing)
    as (out & rest & Hout & Hevents & Hrest & Hcold & Hwarm);
    [vm_compute; reflexivity|reflexivity|vm_compute; lia|].
  exists out, rest. split; [exact Hout|]. split; [|split; [exact Hrest|]].
  - rewrite Hevents, (Hcold eq_refl). vm_compute. reflexivity.
  - vm_compute in Hout. by injection Hout as <-.
Defined.

(* ===================================================================== *)
(** ** Further theorems at sample inputs                                 *)
(* ===================================================================== *)

(** X1 at the default configuration. *)
Lemma optional_attributes_default_sample :
  max_batches cfg_default = 3 ∧ cfg_time_format cfg_default = Microseconds.
Proof.
  destruct (optional_attributes_default raw_default cfg_default)
    as [Hmax Hformat]; [vm_compute; reflexivity|].
  split; [apply Hmax|apply Hformat]; vm_compute; reflexivity.
Defined.

(** X2 with a secret that is not JSON. *)
Lemma rejected_key_run :
  collect sample_fromisoformat sample_format 3 raw_default env_rejected_key
  = Some (Outcome []
            (Some (ConfigurationException BadServiceAccountJson))).
Proof.
  destruct (client_failure_precedes_every_call sample_fromisoformat
              sample_format 3 raw_default cfg_default env_rejected_key
              (ConfigurationException BadServiceAccountJson))
    as (Hrun & _ & _); [vm_compute; reflexivity|reflexivity|].
  exact Hrun.
Defined.

(** X3 with the column list [["ts", 5]]. *)
Lemma bad_column_run :
  collect sample_fromisoformat sample_format 3 raw_bad_column env_same_page
  = Some (Outcome [SetPointer "1700000000000000"] (Some TypeError)).
Proof.
  apply (non_string_column_raises_type_error sample_fromisoformat
           sample_format 3 raw_bad_column cfg_bad_column env_same_page).
  - vm_compute. reflexivity.
  - reflexivity.
  - vm_compute. lia.
  - exists (PyInt 5). split; [|reflexivity].
    right. left.
Defined.

(** X4 on a timestamp warm start. *)
Lemma warm_timestamp_run_raises_nothing :
  ∃ out,
    collect sample_fromisoformat sample_format 3 raw_timestamp
      env_warm_timestamp = Some out
    ∧ raised out ≠ Some UnboundLocalError
    ∧ ∀ why, raised out ≠ Some (ConfigurationException why).
Proof.
  apply (resolution_never_raises sample_fromisoformat sample_format 3
           raw_timestamp cfg_timestamp env_warm_timestamp).
  - vm_compute. reflexivity.
  - reflexivity.
  - vm_compute. lia.
Defined.

(** X5 on a table without new rows. *)
Lemma empty_table_run :
  collect sample_fromisoformat sample_format 3 raw_default env_empty_table
  = Some (Outcome [SetPointer "1700000000000000"; Query sample_query] None).
Proof.
  apply (empty_first_page_is_a_no_op sample_fromisoformat sample_format 3
           raw_default cfg_default env_empty_table sample_query).
  - vm_compute. reflexivity.
  - reflexivity.
  - vm_compute. reflexivity.
  - vm_compute. lia.
  - reflexivity.
Defined.

(** X6 with the same full page for every query. *)
Lemma sink_called_last_sample :
  ∃ out n,
    collect sample_fromisoformat sample_format 3 raw_default env_same_page
    = Some out
    ∧ queries (events out) = replicate n sample_query
    ∧ (length (saves (events out)) ≤ 1)%nat
    ∧ ∀ rows, rows ∈ saves (events out) →
        rows = fetched env_same_page sample_query 0 n
        ∧ rows ≠ []
        ∧ last (events out) = Some (Save rows).
Proof.
  apply (sink_called_last_with_all_rows sample_fromisoformat sample_format
           3 raw_default cfg_default env_same_page sample_query).
  - vm_compute. reflexivity.
  - reflexivity.
  - vm_compute. reflexivity.
  - vm_compute. lia.
Defined.

(** X7 with a sink that raises. *)
Lemma sink_failure_run :
  ∃ out,
    collect sample_fromisoformat sample_format 3 raw_default env_sink_raises
    = Some out
    ∧ queries (events out) = [sample_query]
    ∧ raised out = Some (RequestFailedException "disk full").
Proof.
  destruct (loop_failures_are_request_failed sample_fromisoformat
              sample_format 3 raw_default cfg_default env_sink_raises
              sample_query)
    as (out & n & Hout & Hq & Hraised);
    [vm_compute; reflexivity|reflexivity|vm_compute; reflexivity
    |vm_compute; lia|].
  exists out. split; [exact Hout|].
  assert (n = 0%nat) as ->.
  { vm_compute in Hout. injection Hout as <-.
    destruct n as [|[|n]]; [reflexivity|discriminate Hq|discriminate Hq]. }
  split; [exact Hq|exact Hraised].
Defined.

(** X8 with the same full page for every query. *)
Lemma saved_rows_within_budget_sample :
  ∃ out,
    collect sample_fromisoformat sample_format 3 raw_default env_same_page
    = Some out
    ∧ ∀ rows, rows ∈ saves (events out) → Z.of_nat (length rows) ≤ 3000.
Proof.
  apply (saved_rows_within_budget sample_fromisoformat sample_format 3
           raw_default cfg_default env_same_page).
  - vm_compute. reflexivity.
  - vm_compute. lia.
  - intros i text rows Hrows. injection Hrows as <-.
    rewrite full_page_length. lia.
Defined.

(** X10 with a full page followed by a page of one row. *)
Lemma short_second_page_run :
  collect sample_fromisoformat sample_format 3 raw_default
    env_full_then_short
  = Some (Outcome
            [ SetPointer "1700000000000000"; Query sample_query;
              Query sample_query; Save (full_page ++ [sample_row 1000]) ]
            None).
Proof.
  rewrite (last_page_flushes_everything sample_fromisoformat sample_format
             3 raw_default cfg_default env_full_then_short sample_query 1
             [sample_row 1000]).
  - vm_compute. reflexivity.
  - vm_compute. reflexivity.
  - reflexivity.
  - vm_compute. reflexivity.
  - vm_compute. lia.
  - intros i Hi. assert (i = 0%nat) as -> by lia.
    exists full_page. split; [reflexivity|]. rewrite full_page_length. lia.
  - simpl. lia.
  - reflexivity.
  - discriminate.
  - right. simpl. lia.
Defined.
